(** * AI-Portfolio-Analyzer: the aggregation engine of [ai_portfolio.py]

    A shallow embedding of [AIPortfolioAnalyzer.fetch_live_data_batch] and
    [AIPortfolioAnalyzer.analyze_portfolio], and the properties of the engine
    proved about it; then the same for the constructor of the analyzer and
    for the price helpers and the portfolio form of [streamlit_app.py].

    Python floats are IEEE 754 binary64 numbers: they are embedded as Rocq's
    primitive floats, so that every evaluation below is the one CPython
    performs.  The engine itself is written once, over an interface of the
    arithmetic it uses, and is also instantiated at the rationals, as the
    exact reference that the float engine follows up to rounding. *)

From Stdlib Require Import List String Ascii ZArith QArith Floats Bool Lia Lqa Permutation.
Import ListNotations.

Set Warnings "-inexact-float".

(** ** Python values *)

(** A call either returns a value or raises; the exception is kept by name. *)
Inductive result (A : Type) : Type :=
| Raise (exn : string)
| Return (a : A).
Arguments Raise {A} exn.
Arguments Return {A} a.

Definition bind {A B : Type} (m : result A) (k : A -> result B) : result B :=
  match m with
  | Raise e => Raise e
  | Return a => k a
  end.

(** A block of statements that updates a local variable of type [S] and may
    raise: the store it leaves behind is kept in both cases, since an
    [except] clause sees the assignments made before the exception. *)
Definition block (S A : Type) : Type := S -> result A * S.

Definition ret {S A : Type} (a : A) : block S A := fun s => (Return a, s).

Definition lift {S A : Type} (m : result A) : block S A := fun s => (m, s).

Definition modify {S : Type} (f : S -> S) : block S unit := fun s => (Return tt, f s).

Definition seq {S A B : Type} (m : block S A) (k : A -> block S B) : block S B :=
  fun s =>
    match m s with
    | (Raise e, s') => (Raise e, s')
    | (Return a, s') => k a s'
    end.

Declare Scope block_scope.
Delimit Scope block_scope with block.
Notation "x <- m ;; k" := (seq m (fun x => k))
  (at level 61, m at next level, right associativity) : block_scope.
Notation "m ;; k" := (seq m (fun _ => k))
  (at level 61, right associativity) : block_scope.

(** A [dict] with string keys keeps its keys in insertion order, and
    assigning to a key that is present keeps the key's place. *)
Definition dict (V : Type) : Type := list (string * V).

Fixpoint dict_get {V : Type} (d : dict V) (k : string) : option V :=
  match d with
  | [] => None
  | (k', v) :: d' => if String.eqb k' k then Some v else dict_get d' k
  end.

Fixpoint dict_set {V : Type} (d : dict V) (k : string) (v : V) : dict V :=
  match d with
  | [] => [(k, v)]
  | (k', v') :: d' =>
      if String.eqb k' k then (k', v) :: d' else (k', v') :: dict_set d' k v
  end.

(** [d.get(k, default)] *)
Definition dict_get_default {V : Type} (d : dict V) (k : string) (default : V) : V :=
  match dict_get d k with
  | Some v => v
  | None => default
  end.

(** [k in d] *)
Definition dict_mem {V : Type} (d : dict V) (k : string) : bool :=
  match dict_get d k with
  | Some _ => true
  | None => false
  end.

Definition keys {V : Type} (d : dict V) : list string := map fst d.

Definition values {V : Type} (d : dict V) : list V := map snd d.

(** ** The arithmetic of the engine *)

(** The operations [analyze_portfolio] and [fetch_live_data_batch] apply to
    numbers: decimal and integer literals, [+ - * /], [==], [>] and
    [round(x, ndigits)].  The [.1f] format prints the decimal that
    [round(x, 1)] denotes, so it is [round_ndigits x 1] as a number. *)
Class Number (F : Type) : Type := {
  literal : Q -> F;
  add : F -> F -> F;
  sub : F -> F -> F;
  mul : F -> F -> F;
  div : F -> F -> F;
  eqb : F -> F -> bool;
  gtb : F -> F -> bool;
  round_ndigits : F -> nat -> F
}.

(** The integer nearest to a rational, ties going to the even one. *)
Definition Qround_half_even (q : Q) : Z :=
  let n := Qnum q in
  let d := Z.pos (Qden q) in
  let f := (n / d)%Z in
  match (2 * (n mod d) ?= d)%Z with
  | Lt => f
  | Gt => (f + 1)%Z
  | Eq => if Z.even f then f else (f + 1)%Z
  end.

Definition pow10 (ndigits : nat) : positive := Pos.pow 10 (Pos.of_nat ndigits).

Definition scale10 (ndigits : nat) : positive :=
  match ndigits with
  | O => 1%positive
  | S _ => pow10 ndigits
  end.

(** *** Exact rationals

    The arithmetic without rounding: the reference the float engine is
    compared with.  What is proved at the rationals is said of exact
    arithmetic only, and each such statement comes with the floats that
    depart from it.  [x / 0] is [0] here, where Python raises;
    [analyze_portfolio] divides by the total weight only, after it has
    found it different from zero. *)

Definition Q_round_ndigits (x : Q) (ndigits : nat) : Q :=
  Qround_half_even (x * inject_Z (Z.pos (scale10 ndigits))) # scale10 ndigits.

Definition Q_gtb (x y : Q) : bool :=
  match y ?= x with
  | Lt => true
  | _ => false
  end.

#[export] Instance Q_Number : Number Q := {|
  literal := fun q => q;
  add := Qplus;
  sub := Qminus;
  mul := Qmult;
  div := Qdiv;
  eqb := Qeq_bool;
  gtb := Q_gtb;
  round_ndigits := Q_round_ndigits
|}.

(** *** binary64 *)

(** The rational a finite float is. *)
Definition SF2Q (x : spec_float) : Q :=
  match x with
  | S754_finite s m e =>
      let n := if s then Z.neg m else Z.pos m in
      match e with
      | Z0 => inject_Z n
      | Z.pos p => inject_Z (n * Z.pow 2 (Z.pos p))
      | Z.neg p => n # Pos.pow 2 p
      end
  | _ => 0
  end.

(** The float nearest to a rational, ties to even: what reading a decimal
    literal, and [float(str)], compute. *)
Definition float_of_Q (q : Q) : float :=
  let den := S754_finite false (Qden q) 0 in
  match Qnum q with
  | Z0 => PrimFloat.zero
  | Z.pos n => SF2Prim (SFdiv prec emax (S754_finite false n 0) den)
  | Z.neg n => SF2Prim (SFdiv prec emax (S754_finite true n 0) den)
  end.

(** [round(x, ndigits)] on a float: the decimal with [ndigits] fractional
    digits nearest to the exact value of [x], ties to even, read back as a
    float.  Zeros, infinities and NaN are returned as they are, and a result
    that rounds to zero keeps the sign of [x]. *)
Definition float_round_ndigits (x : float) (ndigits : nat) : float :=
  match Prim2SF x with
  | S754_finite s m e =>
      let k := Qround_half_even
                 (SF2Q (S754_finite s m e) * inject_Z (Z.pos (scale10 ndigits))) in
      if (k =? 0)%Z then (if s then PrimFloat.neg_zero else PrimFloat.zero)
      else float_of_Q (k # scale10 ndigits)
  | _ => x
  end.

#[export] Instance float_Number : Number float := {|
  literal := float_of_Q;
  add := PrimFloat.add;
  sub := PrimFloat.sub;
  mul := PrimFloat.mul;
  div := PrimFloat.div;
  eqb := PrimFloat.eqb;
  gtb := fun x y => PrimFloat.ltb y x;
  round_ndigits := float_round_ndigits
|}.

(** ** The engine *)

Section Engine.

Context {F : Type} `{Number F}.

(** *** The catalog, [self.stocks] *)

Record Stock : Type := {
  s_name : string;
  s_sector : string;
  s_beta : F;
  s_return : F;
  s_risk : string;
  s_volatility : F
}.

Definition mk_stock (name sector : string) (beta ret_pct : Q) (risk : string)
    (volatility : Q) : Stock :=
  {| s_name := name; s_sector := sector; s_beta := literal beta;
     s_return := literal ret_pct; s_risk := risk;
     s_volatility := literal volatility |}.

Definition stocks : dict Stock :=
  [ ("AAPL", mk_stock "Apple Inc." "Technology" 1.2 15.0 "Medium" 0.25);
    ("GOOGL", mk_stock "Alphabet Inc." "Technology" 1.3 12.0 "Medium" 0.28);
    ("MSFT", mk_stock "Microsoft Corp." "Technology" 1.1 14.0 "Medium" 0.22);
    ("NVDA", mk_stock "NVIDIA Corp." "Technology" 1.8 20.0 "High" 0.45);
    ("JPM", mk_stock "JPMorgan Chase" "Financial" 1.0 12.0 "Low" 0.20);
    ("BAC", mk_stock "Bank of America" "Financial" 1.2 10.0 "Medium" 0.25);
    ("JNJ", mk_stock "Johnson & Johnson" "Healthcare" 0.7 8.0 "Low" 0.15);
    ("PFE", mk_stock "Pfizer" "Healthcare" 0.8 6.0 "Low" 0.18);
    ("XOM", mk_stock "ExxonMobil" "Energy" 1.1 8.0 "Medium" 0.30);
    ("SPY", mk_stock "S&P 500 ETF" "Index" 1.0 10.0 "Low" 0.15);
    ("TSLA", mk_stock "Tesla Inc." "Automotive" 2.0 25.0 "High" 0.55);
    ("AMZN", mk_stock "Amazon.com" "Consumer" 1.3 16.0 "Medium" 0.30) ]%string.

(** *** The live price provider *)

(** What the engine does with a pandas frame: [df.empty], and the column
    [df['Close']], a lookup that raises when the column is missing. *)
Record DataFrame : Type := {
  df_empty : bool;
  df_close : result (list F)
}.

(** What [yf.download] hands back: the engine either indexes it by ticker,
    [hist_data[symbol]], which raises for a ticker that is not a column, or
    takes it as the frame of the only ticker asked for. *)
Record HistData : Type := {
  hist_getitem : string -> result DataFrame;
  hist_frame : DataFrame
}.

(** [yf.download(symbols, period="2d", interval="1d", group_by='ticker',
    threads=True)]: returns the history or raises (network failure, timeout,
    a malformed answer). *)
Definition Provider : Type := list string -> result HistData.

Record LivePoint : Type := {
  price : option F;
  daily_change : option F
}.

Definition absent : LivePoint := {| price := None; daily_change := None |}.

(** [series.iloc[0]] and [series.iloc[-1]] raise on an empty series. *)
Definition iloc_first (series : list F) : result F :=
  match series with
  | [] => Raise "IndexError"
  | x :: _ => Return x
  end.

Definition iloc_last (series : list F) : result F :=
  match series with
  | [] => Raise "IndexError"
  | x :: rest => Return (last rest x)
  end.

(** [hist_data[symbol] if len(symbols) > 1 else hist_data] *)
Definition select_frame (hist_data : HistData) (symbols : list string)
    (symbol : string) : result DataFrame :=
  if (1 <? List.length symbols)%nat then hist_getitem hist_data symbol
  else Return (hist_frame hist_data).

(** One turn of the [for symbol in symbols] loop of the [try] block.  The
    closing prices are numpy floats: dividing by a zero [prev_close] gives
    an infinity or NaN and raises nothing, and rounding them is taken to be
    [round]. *)
Definition fetch_symbol (hist_data : HistData) (symbols : list string)
    (symbol : string) : block (dict LivePoint) unit :=
  (df <- lift (select_frame hist_data symbols symbol) ;;
   if negb (df_empty df) then
     close <- lift (df_close df) ;;
     last_close <- lift (iloc_last close) ;;
     let price := round_ndigits last_close 2 in
     prev_close <- lift (iloc_first close) ;;
     let daily_change :=
       round_ndigits (mul (div (sub price prev_close) prev_close) (literal 100)) 2 in
     modify (fun data =>
       dict_set data symbol {| price := Some price; daily_change := Some daily_change |})
   else
     modify (fun data => dict_set data symbol absent))%block.

Fixpoint for_each {S : Type} (body : string -> block S unit) (l : list string)
    : block S unit :=
  match l with
  | [] => ret tt
  | x :: rest => (body x ;; for_each body rest)%block
  end.

(** The [try] block. *)
Definition fetch_try (download : Provider) (symbols : list string)
    : block (dict LivePoint) unit :=
  (hist_data <- lift (download symbols) ;;
   for_each (fetch_symbol hist_data symbols) symbols)%block.

(** The [except] block: it cannot raise. *)
Definition fetch_except (symbols : list string) (data : dict LivePoint)
    : dict LivePoint :=
  fold_left (fun data symbol => dict_set data symbol absent) symbols data.

Definition fetch_live_data_batch (download : Provider) (symbols : list string)
    : result (dict LivePoint) :=
  let data := [] in
  match fetch_try download symbols data with
  | (Return _, data) => Return data
  | (Raise _, data) => Return (fetch_except symbols data)
  end.

(** *** Portfolio analysis *)

Inductive RiskTier : Type := High | Medium | Low.

(** The numbers and labels the report string is built from, in the order
    the string gives them. *)
Record Report : Type := {
  total_allocation : F;
  weighted_beta : F;
  weighted_return : F;
  weighted_volatility : F;
  portfolio_risk : RiskTier;
  sector_breakdown : list (string * F);
  risk_breakdown : list (string * F)
}.

(** [analyze_portfolio] returns a string: an error message, or the report. *)
Inductive Outcome : Type :=
| Error (message : string)
| Analysis (report : Report).

Definition EmptyPortfolioError : string := "Error: Portfolio is empty".

Definition ZeroWeightError : string := "Error: Portfolio weights sum to zero".

(** The integer [0] the accumulators and [sum] start from. *)
Definition zero : F := literal 0.

(** [sum(xs)]: the values added from left to right, starting from [0].
    (CPython 3.12 and later add to this a correction for the rounding
    errors of the additions; it is zero whenever the additions are exact,
    as they are in every sum evaluated below.) *)
Definition sum (xs : list F) : F := fold_left add xs zero.

(** The local variables the loop over [portfolio.items()] updates. *)
Record Acc : Type := {
  acc_beta : F;
  acc_return : F;
  acc_volatility : F;
  sectors : dict F;
  risk_levels : dict F
}.

Definition acc_init : Acc :=
  {| acc_beta := zero; acc_return := zero; acc_volatility := zero;
     sectors := []; risk_levels := [] |}.

Definition accumulate (catalog : dict Stock) (total_weight : F) (acc : Acc)
    (item : string * F) : Acc :=
  let (symbol, weight) := item in
  match dict_get catalog symbol with
  | None => acc
  | Some stock =>
      let weight_pct := div weight total_weight in
      {| acc_beta := add (acc_beta acc) (mul (s_beta stock) weight_pct);
         acc_return := add (acc_return acc) (mul (s_return stock) weight_pct);
         acc_volatility := add (acc_volatility acc) (mul (s_volatility stock) weight_pct);
         sectors := dict_set (sectors acc) (s_sector stock)
                      (add (dict_get_default (sectors acc) (s_sector stock) zero) weight);
         risk_levels := dict_set (risk_levels acc) (s_risk stock)
                          (add (dict_get_default (risk_levels acc) (s_risk stock) zero) weight) |}
  end.

(** [(weight/total_weight)*100] for every entry of a breakdown dict. *)
Definition percentages (total_weight : F) (d : dict F) : list (string * F) :=
  map (fun '(label, weight) => (label, mul (div weight total_weight) (literal 100))) d.

(** The [.1f] format of every percentage. *)
Definition format_1f (l : list (string * F)) : list (string * F) :=
  map (fun '(label, pct) => (label, round_ndigits pct 1)) l.

Definition classify (weighted_beta : F) : RiskTier :=
  if gtb weighted_beta (literal 1.3) then High
  else if gtb weighted_beta (literal 0.8) then Medium
  else Low.

Definition is_empty {V : Type} (d : dict V) : bool :=
  match d with
  | [] => true
  | _ => false
  end.

Definition analyze_portfolio (catalog : dict Stock) (download : Provider)
    (portfolio : dict F) : result Outcome :=
  if is_empty portfolio then Return (Error EmptyPortfolioError)
  else
    let total_weight := sum (values portfolio) in
    if eqb total_weight zero then Return (Error ZeroWeightError)
    else
      let symbols := keys portfolio in
      bind (fetch_live_data_batch download symbols) (fun live_data =>
      let acc := fold_left (accumulate catalog total_weight) portfolio acc_init in
      let sector_breakdown := format_1f (percentages total_weight (sectors acc)) in
      let risk_breakdown := format_1f (percentages total_weight (risk_levels acc)) in
      Return (Analysis
        {| total_allocation := total_weight;
           weighted_beta := round_ndigits (acc_beta acc) 2;
           weighted_return := round_ndigits (acc_return acc) 2;
           weighted_volatility := round_ndigits (acc_volatility acc) 2;
           portfolio_risk := classify (acc_beta acc);
           sector_breakdown := sector_breakdown;
           risk_breakdown := risk_breakdown |})).

End Engine.

Arguments Stock F : clear implicits.
Arguments DataFrame F : clear implicits.
Arguments HistData F : clear implicits.
Arguments Provider F : clear implicits.
Arguments LivePoint F : clear implicits.
Arguments Report F : clear implicits.
Arguments Outcome F : clear implicits.
Arguments Acc F : clear implicits.

(** ** The engine in the words of its specification *)

Section Specification.

Context {F : Type} `{Number F}.

(** The holdings whose symbol the catalog knows, in portfolio order, each
    with its catalog entry. *)
Definition known_holdings (catalog : dict (Stock F)) (portfolio : dict F)
    : list (Stock F * F) :=
  flat_map (fun '(symbol, weight) =>
              match dict_get catalog symbol with
              | Some stock => [(stock, weight)]
              | None => []
              end) portfolio.


(** The term a known holding adds to a weighted metric. *)
Definition contribution (field : Stock F -> F) (total_weight : F) (h : Stock F * F) : F :=
  mul (field (fst h)) (div (snd h) total_weight).

(** A weighted metric in full precision: the catalog value of every known
    holding times its share [weight / totalWeight] of the whole portfolio. *)
Definition weighted (field : Stock F -> F) (catalog : dict (Stock F))
    (portfolio : dict F) : F :=
  let total_weight := sum (values portfolio) in
  sum (map (contribution field total_weight) (known_holdings catalog portfolio)).

(** The labels of a breakdown, each once, in order of first appearance. *)
Fixpoint dedup (l : list string) : list string :=
  match l with
  | [] => []
  | x :: rest => x :: filter (fun y => negb (String.eqb x y)) (dedup rest)
  end.

Definition labels (label_of : Stock F -> string) (known : list (Stock F * F))
    : list string :=
  dedup (map (fun h => label_of (fst h)) known).

(** The raw weight a label gathers. *)
Definition group_weight (label_of : Stock F -> string) (known : list (Stock F * F))
    (label : string) : F :=
  sum (map snd (filter (fun h => String.eqb (label_of (fst h)) label) known)).

Definition breakdown (label_of : Stock F -> string) (known : list (Stock F * F))
    : dict F :=
  map (fun label => (label, group_weight label_of known label)) (labels label_of known).

(** [d[label] = d.get(label, 0) + weight] for one known holding. *)
Definition bump (label_of : Stock F -> string) (d : dict F) (h : Stock F * F) : dict F :=
  dict_set d (label_of (fst h)) (add (dict_get_default d (label_of (fst h)) zero) (snd h)).

(** The percentages of a breakdown before they are formatted. *)
Definition sector_percentages (catalog : dict (Stock F)) (portfolio : dict F)
    : list (string * F) :=
  let total_weight := sum (values portfolio) in
  percentages total_weight
    (sectors (fold_left (accumulate catalog total_weight) portfolio acc_init)).

Definition risk_percentages (catalog : dict (Stock F)) (portfolio : dict F)
    : list (string * F) :=
  let total_weight := sum (values portfolio) in
  percentages total_weight
    (risk_levels (fold_left (accumulate catalog total_weight) portfolio acc_init)).

(** A provider that fails on every request. *)
Definition offline : Provider F := fun _ => Raise "ConnectionError".

(** A catalog of one synthetic ticker with the given beta. *)
Definition synthetic (beta : Q) : dict (Stock F) :=
  [("SYN"%string, mk_stock "Synthetic" "Synthetic" beta 10.0 "Medium" 0.2)].

(** The tier reported for a portfolio of that single ticker. *)
Definition single_holding_tier (beta : Q) (weight : F) (tier : RiskTier) : Prop :=
  forall download : Provider F, exists report,
    analyze_portfolio (synthetic beta) download [("SYN"%string, weight)]
    = Return (Analysis report) /\
    portfolio_risk report = tier.

End Specification.

(** ** The rest of the analyzer and its caller *)

(** *** Python strings

    A string stands for an ASCII [str], one character a byte; [strip] and
    [upper] are those of Python on such text. *)

Definition is_ascii (s : string) : bool :=
  forallb (fun c => (nat_of_ascii c <? 128)%nat) (list_ascii_of_string s).

(** The ASCII characters [str.strip()] removes: tab to carriage return,
    the four separators 28 to 31, and the space. *)
Definition is_space (c : ascii) : bool :=
  let n := nat_of_ascii c in
  (((9 <=? n) && (n <=? 13)) || ((28 <=? n) && (n <=? 32)))%nat.

Fixpoint lstrip (s : string) : string :=
  match s with
  | EmptyString => EmptyString
  | String c rest => if is_space c then lstrip rest else s
  end.

Fixpoint rstrip (s : string) : string :=
  match s with
  | EmptyString => EmptyString
  | String c rest =>
      match rstrip rest with
      | EmptyString => if is_space c then EmptyString else String c EmptyString
      | kept => String c kept
      end
  end.

(** [s.strip()] *)
Definition strip (s : string) : string := rstrip (lstrip s).

Definition upper_char (c : ascii) : ascii :=
  let n := nat_of_ascii c in
  if ((97 <=? n) && (n <=? 122))%nat then ascii_of_nat (n - 32) else c.

(** [s.upper()] *)
Fixpoint upper (s : string) : string :=
  match s with
  | EmptyString => EmptyString
  | String c rest => String (upper_char c) (upper rest)
  end.

(** [sep in s], for a separator of one character. *)
Fixpoint contains (sep : ascii) (s : string) : bool :=
  match s with
  | EmptyString => false
  | String c rest => Ascii.eqb c sep || contains sep rest
  end.

(** [s.count(sep)] *)
Fixpoint count_char (sep : ascii) (s : string) : nat :=
  match s with
  | EmptyString => 0
  | String c rest => (if Ascii.eqb c sep then 1 else 0) + count_char sep rest
  end.

(** [s.split(sep)], for a separator of one character: the pieces between
    the separators, empty pieces included, at least one piece. *)
Fixpoint split (sep : ascii) (s : string) : list string :=
  match s with
  | EmptyString => [EmptyString]
  | String c rest =>
      if Ascii.eqb c sep then EmptyString :: split sep rest
      else
        match split sep rest with
        | [] => [String c EmptyString]
        | piece :: pieces => String c piece :: pieces
        end
  end.

(** The truth value of a [str]: it is not empty. *)
Definition truthy (s : string) : bool :=
  match s with
  | EmptyString => false
  | String _ _ => true
  end.

(** The truth value of a value that is [None] or a [str]. *)
Definition truthy_opt (s : option string) : bool :=
  match s with
  | None => false
  | Some s => truthy s
  end.

(** *** [AIPortfolioAnalyzer.__init__]

    The key handed to the OpenAI client, or the [ValueError] of the
    constructor.  [getenv] is [os.getenv]. *)
Definition analyzer_init (api_key : option string) (getenv : string -> option string)
    : result string :=
  let api_key := if negb (truthy_opt api_key) then getenv "OPENAI_API_KEY"%string
                 else api_key in
  match api_key with
  | Some key => if negb (truthy key) then Raise "ValueError" else Return key
  | None => Raise "ValueError"
  end.

Section Application.

Context {F : Type} `{Number F}.

(** *** The entry of a symbol, as the batch fetch computes it *)

Definition live_point (hist_data : HistData F) (symbols : list string) (symbol : string)
    : result (LivePoint F) :=
  bind (select_frame hist_data symbols symbol) (fun df =>
  if negb (df_empty df) then
    bind (df_close df) (fun close =>
    bind (iloc_last close) (fun last_close =>
    let price := round_ndigits last_close 2 in
    bind (iloc_first close) (fun prev_close =>
    let daily_change :=
      round_ndigits (mul (div (sub price prev_close) prev_close) (literal 100)) 2 in
    Return {| price := Some price; daily_change := Some daily_change |})))
  else Return absent).

(** *** The helpers of [streamlit_app.py] *)

(** [yf.Ticker(symbol).history(period=...)], or yahooquery's
    [Ticker(symbol).history(period=...)]: the frame of one symbol, or an
    exception.  The [st.cache_data] decorators are left out: they replay
    the answer of an earlier call with the same arguments. *)
Definition History : Type := string -> result (DataFrame F).

(** One turn of the loop of [get_current_prices]: the assignment to
    [prices[symbol]] is made once its right-hand side is there, and any
    exception before it assigns [None]. *)
Definition current_price (history : History) (prices : dict (option F))
    (symbol : string) : dict (option F) :=
  match bind (history symbol) (fun data =>
          if negb (df_empty data) then
            bind (df_close data) (fun close =>
            bind (iloc_last close) (fun last_close =>
            Return (dict_set prices symbol (Some last_close))))
          else Return prices) with
  | Return prices' => prices'
  | Raise _ => dict_set prices symbol None
  end.

Definition get_current_prices (history : History) (symbols : list string)
    : dict (option F) :=
  fold_left (current_price history) symbols [].

(** [series.iloc[-2]] *)
Definition iloc_second_last (series : list F) : result F :=
  match rev series with
  | _ :: x :: _ => Return x
  | _ => Raise "IndexError"
  end.

(** [fetch_index_value]: the pair [(last, diff)], or [("N/A", 0)], whose
    first component is [None] here. *)
Definition fetch_index_value (history : History) (ticker_symbol : string)
    : option F * F :=
  match bind (history ticker_symbol) (fun hist =>
          if negb (df_empty hist) then
            bind (df_close hist) (fun close =>
            bind (iloc_last close) (fun last_close =>
            let last := round_ndigits last_close 2 in
            bind (iloc_second_last close) (fun prev_close =>
            let prev := round_ndigits prev_close 2 in
            let diff := round_ndigits (sub last prev) 2 in
            Return (Some (Some last, diff)))))
          else Return None) with
  | Return (Some value) => value
  | _ => (None, zero)
  end.

(** [x >= y]: on floats as on rationals, [x > y or x == y]. *)
Definition geb (x y : F) : bool := gtb x y || eqb x y.

(** The colour of an index in the sidebar. *)
Definition index_color (diff : F) : string :=
  if geb diff zero then "#28a745" else "#dc3545".

(** *** The portfolio text of the second tab *)

Section PortfolioText.

(** [float(s)]: the number a text denotes, or a [ValueError]. *)
Variable to_float : string -> result F.

(** One turn of the loop over the lines: a line without a colon is passed
    over, and unpacking [line.split(':')] into [sym, wt] raises unless
    there are exactly two pieces. *)
Definition parse_line (portfolio : dict F) (line : string) : result (dict F) :=
  if contains ":" line then
    match split ":" line with
    | [sym; wt] =>
        bind (to_float (strip wt)) (fun weight =>
        Return (dict_set portfolio (upper (strip sym)) weight))
    | _ => Raise "ValueError"
    end
  else Return portfolio.

Fixpoint parse_lines (lines : list string) (portfolio : dict F) : result (dict F) :=
  match lines with
  | [] => Return portfolio
  | line :: rest => bind (parse_line portfolio line) (parse_lines rest)
  end.

(** [portfolio = {}] and the loop over [portfolio_text.strip().split('\n')]. *)
Definition parse_portfolio (portfolio_text : string) : result (dict F) :=
  parse_lines (split "010" (strip portfolio_text)) [].

(** What a click on "Analyze Portfolio" does, up to the analysis it puts
    in the result area: nothing when the text or the key is empty. *)
Definition analyze_clicked (getenv : string -> option string) (download : Provider F)
    (portfolio_text api_key : string) : result (option (Outcome F)) :=
  if truthy portfolio_text && truthy api_key then
    bind (analyzer_init (Some (strip api_key)) getenv) (fun _ =>
    bind (parse_portfolio portfolio_text) (fun portfolio =>
    bind (analyze_portfolio stocks download portfolio) (fun analysis =>
    Return (Some analysis))))
  else Return None.

End PortfolioText.

End Application.

Arguments History F : clear implicits.

(** A reader of plain decimals, [digits], [digits.digits], [digits.] or
    [.digits] with an optional sign, for the examples.  Where it returns a
    number, [float] returns that number; it raises on every other text,
    also on the spellings [float] accepts beyond these (exponents,
    underscores, [inf], [nan]), which no example uses. *)
Fixpoint read_digits (s : string) (acc : Z) : option Z :=
  match s with
  | EmptyString => Some acc
  | String c rest =>
      let n := nat_of_ascii c in
      if ((48 <=? n) && (n <=? 57))%nat
      then read_digits rest (10 * acc + Z.of_nat (n - 48))%Z
      else None
  end.

Definition read_unsigned (s : string) : option Q :=
  match split "." s with
  | [whole] =>
      if truthy whole then option_map inject_Z (read_digits whole 0) else None
  | [whole; fraction] =>
      if truthy whole || truthy fraction then
        match read_digits whole 0, read_digits fraction 0 with
        | Some w, Some f =>
            Some (inject_Z w + (f # Pos.pow 10 (Pos.of_nat (String.length fraction))))%Q
        | _, _ => None
        end
      else None
  | _ => None
  end.

Definition read_decimal (s : string) : result float :=
  let '(negative, digits) :=
    match s with
    | String "-" rest => (true, rest)
    | String "+" rest => (false, rest)
    | _ => (false, s)
    end in
  match read_unsigned digits with
  | Some q => Return (if negative then PrimFloat.opp (float_of_Q q) else float_of_Q q)
  | None => Raise "ValueError"
  end.

(** ** Words for the properties of the application *)

(** A text that does not begin with a space. *)
Definition starts_clean (s : string) : Prop :=
  match s with
  | EmptyString => True
  | String c _ => is_space c = false
  end.

Definition newline : string := String "010" EmptyString.

Section ApplicationWords.

Context {F : Type} `{Number F}.

(** What [prices.get(symbol)] is after [get_current_prices] was asked for
    the symbol: [Some None] stands for the entry [None], and [None] for no
    entry at all, which is how an empty history is left. *)
Definition price_lookup (history : History F) (symbol : string) : option (option F) :=
  match history symbol with
  | Raise _ => Some None
  | Return data =>
      if df_empty data then None
      else
        match bind (df_close data) iloc_last with
        | Return last_close => Some (Some last_close)
        | Raise _ => Some None
        end
  end.

(** A line the loop over the portfolio text gets through: it has no colon,
    or exactly one and a weight that [float] reads. *)
Definition line_ok (to_float : string -> result F) (line : string) : Prop :=
  contains ":" line = true ->
  exists sym wt weight,
    split ":" line = [sym; wt] /\ to_float (strip wt) = Return weight.

(** The keys a dictionary may hold after that loop: distinct, upper-case,
    without spaces around them. *)
Definition normalised (portfolio : dict F) : Prop :=
  NoDup (keys portfolio) /\
  forall k, In k (keys portfolio) -> upper k = k /\ strip k = k.

End ApplicationWords.


(** Two days of prices for AAPL, and no column for any other ticker. *)
Definition sample_history : HistData float :=
  {| hist_getitem := fun symbol =>
       if String.eqb symbol "AAPL"
       then Return {| df_empty := false;
                      df_close := Return [100%float; 101.5%float] |}
       else Raise "KeyError";
     hist_frame := {| df_empty := true; df_close := Return [] |} |}.

(** ** Dictionaries *)

Section DictFacts.

Context {V : Type}.

Lemma dict_get_set_same (d : dict V) (k : string) (v : V) :
  dict_get (dict_set d k v) k = Some v.
Proof.
  induction d as [|[k' v'] d IH]; simpl.
  - now rewrite String.eqb_refl.
  - destruct (String.eqb k' k) eqn:E; simpl; rewrite E; auto.
Qed.

Lemma dict_get_set_other (d : dict V) (k k' : string) (v : V) :
  k <> k' -> dict_get (dict_set d k v) k' = dict_get d k'.
Proof.
  intros Hne. induction d as [|[k0 v0] d IH]; simpl.
  - destruct (String.eqb k k') eqn:E; auto.
    apply String.eqb_eq in E. contradiction.
  - destruct (String.eqb k0 k) eqn:E; simpl.
    + apply String.eqb_eq in E. subst k0.
      destruct (String.eqb k k') eqn:E'; auto.
      apply String.eqb_eq in E'. contradiction.
    + now rewrite IH.
Qed.

Lemma dict_set_fresh (d : dict V) (k : string) (v : V) :
  dict_get d k = None -> dict_set d k v = d ++ [(k, v)].
Proof.
  induction d as [|[k' v'] d IH]; simpl; auto.
  destruct (String.eqb k' k) eqn:E; [discriminate|].
  intros Hg. now rewrite IH.
Qed.

End DictFacts.

(** ** Fetching live data *)

Section FetchFacts.

Context {F : Type} `{Number F}.

Lemma fetch_symbol_empty (hist : HistData F) (symbols : list string) (symbol : string)
    (df : DataFrame F) (data : dict (LivePoint F)) :
  select_frame hist symbols symbol = Return df ->
  df_empty df = true ->
  fetch_symbol hist symbols symbol data = (Return tt, dict_set data symbol absent).
Proof.
  intros Hsel Hemp. unfold fetch_symbol, seq, lift, modify.
  rewrite Hsel, Hemp. reflexivity.
Qed.

(** A turn of the loop assigns to the entry of its own symbol only. *)
Lemma fetch_symbol_other (hist : HistData F) (symbols : list string) (symbol s : string)
    (data : dict (LivePoint F)) :
  symbol <> s ->
  dict_get (snd (fetch_symbol hist symbols symbol data)) s = dict_get data s.
Proof.
  intros Hne. unfold fetch_symbol, seq, lift, modify.
  destruct (select_frame hist symbols symbol) as [e|df]; simpl; auto.
  destruct (df_empty df); simpl.
  - now apply dict_get_set_other.
  - destruct (df_close df) as [e|close]; simpl; auto.
    destruct (iloc_last close) as [e|last_close]; simpl; auto.
    destruct (iloc_first close) as [e|prev_close]; simpl; auto.
    now apply dict_get_set_other.
Qed.

(** When the loop runs to its end, a symbol whose frame is empty is left
    with the absent entry. *)
Lemma for_each_fetch_empty (hist : HistData F) (symbols : list string) (s : string)
    (df : DataFrame F) :
  select_frame hist symbols s = Return df ->
  df_empty df = true ->
  forall (l : list string) (data data' : dict (LivePoint F)),
    In s l \/ dict_get data s = Some absent ->
    for_each (fetch_symbol hist symbols) l data = (Return tt, data') ->
    dict_get data' s = Some absent.
Proof.
  intros Hsel Hemp. induction l as [|x rest IH]; intros data data' Hin Hrun.
  - simpl in Hrun. unfold ret in Hrun. inversion Hrun; subst.
    destruct Hin as [[]|Hg]; exact Hg.
  - simpl in Hrun. unfold seq in Hrun.
    destruct (fetch_symbol hist symbols x data) as [[e|[]] data1] eqn:Hstep;
      [discriminate|].
    apply (IH data1 data'); [|exact Hrun].
    destruct (string_dec x s) as [->|Hne].
    + right. rewrite (fetch_symbol_empty _ _ _ _ _ Hsel Hemp) in Hstep.
      inversion Hstep; subst. apply dict_get_set_same.
    + destruct Hin as [[Heq|Hin]|Hg]; [contradiction|now left|].
      right. pose proof (fetch_symbol_other hist symbols x s data Hne) as Hk.
      rewrite Hstep in Hk. simpl in Hk. now rewrite Hk.
Qed.

Lemma fetch_except_keeps (symbols : list string) (s : string) :
  forall data : dict (LivePoint F),
    dict_get data s = Some absent ->
    dict_get (fetch_except symbols data) s = Some absent.
Proof.
  unfold fetch_except. induction symbols as [|x rest IH]; intros data Hg; simpl; auto.
  apply IH. destruct (string_dec x s) as [->|Hne].
  - apply dict_get_set_same.
  - now rewrite dict_get_set_other.
Qed.

(** The [except] block leaves every requested symbol absent. *)
Lemma fetch_except_absent (symbols : list string) (s : string) :
  forall data : dict (LivePoint F),
    In s symbols ->
    dict_get (fetch_except symbols data) s = Some absent.
Proof.
  induction symbols as [|x rest IH]; intros data Hin; [destruct Hin|].
  destruct Hin as [->|Hin].
  - unfold fetch_except. simpl. apply fetch_except_keeps, dict_get_set_same.
  - unfold fetch_except. simpl. now apply IH.
Qed.

Lemma fetch_live_data_batch_returns (download : Provider F) (symbols : list string) :
  exists data, fetch_live_data_batch download symbols = Return data.
Proof.
  unfold fetch_live_data_batch.
  destruct (fetch_try download symbols []) as [[e|u] data]; eauto.
Qed.

Lemma fetch_try_download_raises (download : Provider F) (symbols : list string)
    (e : string) (data : dict (LivePoint F)) :
  download symbols = Raise e ->
  fetch_try download symbols data = (Raise e, data).
Proof.
  intros Hd. unfold fetch_try, seq, lift. now rewrite Hd.
Qed.

Lemma fetch_try_download_returns (download : Provider F) (symbols : list string)
    (hist : HistData F) (data : dict (LivePoint F)) :
  download symbols = Return hist ->
  fetch_try download symbols data = for_each (fetch_symbol hist symbols) symbols data.
Proof.
  intros Hd. unfold fetch_try, seq, lift. now rewrite Hd.
Qed.

End FetchFacts.

(** ** Analysis: control flow *)

Section AnalyzeFacts.

Context {F : Type} `{Number F}.

Lemma is_empty_false {V : Type} (d : dict V) : d <> [] -> is_empty d = false.
Proof. destruct d; [congruence|reflexivity]. Qed.

Lemma analyze_portfolio_empty (catalog : dict (Stock F)) (download : Provider F) :
  analyze_portfolio catalog download [] = Return (Error EmptyPortfolioError).
Proof. reflexivity. Qed.

Lemma analyze_portfolio_zero (catalog : dict (Stock F)) (download : Provider F)
    (portfolio : dict F) :
  portfolio <> [] ->
  eqb (sum (values portfolio)) zero = true ->
  analyze_portfolio catalog download portfolio = Return (Error ZeroWeightError).
Proof.
  intros Hne Hz. unfold analyze_portfolio.
  now rewrite (is_empty_false _ Hne), Hz.
Qed.

(** What a valid portfolio is answered with, whatever the provider does. *)
Lemma analyze_portfolio_valid (catalog : dict (Stock F)) (download : Provider F)
    (portfolio : dict F) :
  portfolio <> [] ->
  eqb (sum (values portfolio)) zero = false ->
  let total_weight := sum (values portfolio) in
  let acc := fold_left (accumulate catalog total_weight) portfolio acc_init in
  analyze_portfolio catalog download portfolio =
  Return (Analysis
    {| total_allocation := total_weight;
       weighted_beta := round_ndigits (acc_beta acc) 2;
       weighted_return := round_ndigits (acc_return acc) 2;
       weighted_volatility := round_ndigits (acc_volatility acc) 2;
       portfolio_risk := classify (acc_beta acc);
       sector_breakdown := format_1f (sector_percentages catalog portfolio);
       risk_breakdown := format_1f (risk_percentages catalog portfolio) |}).
Proof.
  intros Hne Hz total_weight acc. unfold analyze_portfolio.
  rewrite (is_empty_false _ Hne), Hz.
  destruct (fetch_live_data_batch_returns download (keys portfolio)) as [data Hdata].
  rewrite Hdata. reflexivity.
Qed.

Lemma analyze_portfolio_provider (catalog : dict (Stock F)) (d1 d2 : Provider F)
    (portfolio : dict F) :
  analyze_portfolio catalog d1 portfolio = analyze_portfolio catalog d2 portfolio.
Proof.
  unfold analyze_portfolio.
  destruct (is_empty portfolio); [reflexivity|].
  destruct (eqb (sum (values portfolio)) zero); [reflexivity|].
  destruct (fetch_live_data_batch_returns d1 (keys portfolio)) as [data1 H1].
  destruct (fetch_live_data_batch_returns d2 (keys portfolio)) as [data2 H2].
  rewrite H1, H2. reflexivity.
Qed.

Lemma analyze_portfolio_returns (catalog : dict (Stock F)) (download : Provider F)
    (portfolio : dict F) :
  exists outcome, analyze_portfolio catalog download portfolio = Return outcome.
Proof.
  unfold analyze_portfolio.
  destruct (is_empty portfolio); [eauto|].
  destruct (eqb (sum (values portfolio)) zero); [eauto|].
  destruct (fetch_live_data_batch_returns download (keys portfolio)) as [data Hd].
  rewrite Hd. simpl. eauto.
Qed.

(** An error is answered to the empty portfolio and to a zero total only. *)
Lemma analyze_portfolio_error_iff (catalog : dict (Stock F)) (download : Provider F)
    (portfolio : dict F) :
  (exists message, analyze_portfolio catalog download portfolio = Return (Error message))
  <-> portfolio = [] \/ eqb (sum (values portfolio)) zero = true.
Proof.
  split.
  - intros [message Hmsg].
    destruct portfolio as [|item rest]; [now left|]. right.
    destruct (eqb (sum (values (item :: rest))) zero) eqn:Hz; [reflexivity|].
    rewrite analyze_portfolio_valid in Hmsg; [discriminate|discriminate|exact Hz].
  - intros [->|Hz].
    + exists EmptyPortfolioError. apply analyze_portfolio_empty.
    + destruct portfolio as [|item rest].
      * exists EmptyPortfolioError. apply analyze_portfolio_empty.
      * exists ZeroWeightError. apply analyze_portfolio_zero; [discriminate|exact Hz].
Qed.

(** ** Analysis: the loop against the specification *)

(** The loop over the portfolio is the loop over its known holdings. *)
Lemma fold_accumulate (catalog : dict (Stock F)) (total_weight : F) :
  forall (portfolio : dict F) (acc : Acc F),
    let known := known_holdings catalog portfolio in
    let acc' := fold_left (accumulate catalog total_weight) portfolio acc in
    acc_beta acc' =
      fold_left add (map (contribution s_beta total_weight) known) (acc_beta acc) /\
    acc_return acc' =
      fold_left add (map (contribution s_return total_weight) known) (acc_return acc) /\
    acc_volatility acc' =
      fold_left add (map (contribution s_volatility total_weight) known)
        (acc_volatility acc) /\
    sectors acc' = fold_left (bump s_sector) known (sectors acc) /\
    risk_levels acc' = fold_left (bump s_risk) known (risk_levels acc).
Proof.
  induction portfolio as [|[symbol weight] rest IH]; intros acc; simpl.
  - repeat split.
  - unfold known_holdings in *. simpl.
    destruct (dict_get catalog symbol) as [stock|] eqn:Hget; simpl.
    + apply IH.
    + apply IH.
Qed.

Lemma known_holdings_none (catalog : dict (Stock F)) (portfolio : dict F) :
  (forall symbol, In symbol (keys portfolio) -> dict_get catalog symbol = None) ->
  known_holdings catalog portfolio = [].
Proof.
  induction portfolio as [|[symbol weight] rest IH]; intros Hnone; [reflexivity|].
  unfold known_holdings in *. simpl.
  rewrite (Hnone symbol) by (simpl; auto). simpl.
  apply IH. intros s Hs. apply Hnone. simpl. auto.
Qed.

End AnalyzeFacts.

(** ** Analysis: the breakdown dictionaries *)

Section BreakdownFacts.

Context {F : Type} `{Number F}.

Lemma existsb_eqb_In (l : string) (xs : list string) :
  existsb (String.eqb l) xs = true <-> In l xs.
Proof.
  rewrite existsb_exists. split.
  - intros [x [Hin Heq]]. apply String.eqb_eq in Heq. now subst.
  - intros Hin. exists l. split; [exact Hin|apply String.eqb_refl].
Qed.

Lemma dedup_snoc (xs : list string) (l : string) :
  dedup (xs ++ [l]) =
  if existsb (String.eqb l) xs then dedup xs else dedup xs ++ [l].
Proof.
  induction xs as [|x xs IH]; [reflexivity|].
  simpl. rewrite IH.
  destruct (existsb (String.eqb l) xs).
  - now rewrite orb_true_r.
  - rewrite orb_false_r, filter_app. simpl.
    rewrite (String.eqb_sym x l).
    destruct (String.eqb l x); simpl; [now rewrite app_nil_r|reflexivity].
Qed.

Lemma In_dedup (xs : list string) (l : string) : In l (dedup xs) <-> In l xs.
Proof.
  induction xs as [|x xs IH]; simpl; [tauto|].
  rewrite filter_In, IH, negb_true_iff, String.eqb_neq.
  destruct (string_dec x l); tauto.
Qed.

Lemma NoDup_dedup (xs : list string) : NoDup (dedup xs).
Proof.
  induction xs as [|x xs IH]; simpl; constructor.
  - rewrite filter_In, negb_true_iff, String.eqb_neq. tauto.
  - now apply NoDup_filter.
Qed.

Lemma filter_none {A : Type} (f : A -> bool) (l : list A) :
  (forall x, In x l -> f x = false) -> filter f l = [].
Proof.
  induction l as [|x l IH]; intros Hf; [reflexivity|].
  simpl. rewrite (Hf x) by (simpl; auto).
  apply IH. intros y Hy. apply Hf. simpl. auto.
Qed.

Lemma sum_snoc (xs : list F) (x : F) : sum (xs ++ [x]) = add (sum xs) x.
Proof. unfold sum. now rewrite fold_left_app. Qed.

Lemma group_weight_snoc (label_of : Stock F -> string) (known : list (Stock F * F))
    (h : Stock F * F) (label : string) :
  group_weight label_of (known ++ [h]) label =
  if String.eqb (label_of (fst h)) label
  then add (group_weight label_of known label) (snd h)
  else group_weight label_of known label.
Proof.
  unfold group_weight. rewrite filter_app. simpl.
  destruct (String.eqb (label_of (fst h)) label).
  - rewrite map_app. simpl. apply sum_snoc.
  - now rewrite app_nil_r.
Qed.

Lemma dict_get_tabulate (g : string -> F) (labs : list string) (l : string) :
  dict_get (map (fun lab => (lab, g lab)) labs) l =
  if existsb (String.eqb l) labs then Some (g l) else None.
Proof.
  induction labs as [|x labs IH]; [reflexivity|].
  simpl. rewrite (String.eqb_sym l x).
  destruct (String.eqb x l) eqn:E; simpl; [|exact IH].
  apply String.eqb_eq in E. now subst.
Qed.

Lemma dict_set_tabulate_present (g : string -> F) (labs : list string) (l : string) (v : F) :
  NoDup labs -> In l labs ->
  dict_set (map (fun lab => (lab, g lab)) labs) l v =
  map (fun lab => (lab, if String.eqb lab l then v else g lab)) labs.
Proof.
  induction labs as [|x labs IH]; intros Hnd Hin; [destruct Hin|].
  inversion Hnd as [|? ? Hnotin Hnd']; subst. simpl.
  destruct (String.eqb x l) eqn:E.
  - apply String.eqb_eq in E. subst x. f_equal.
    apply map_ext_in. intros lab Hlab.
    destruct (String.eqb lab l) eqn:E'; [|reflexivity].
    apply String.eqb_eq in E'. subst. contradiction.
  - f_equal. apply IH; [exact Hnd'|].
    destruct Hin as [->|Hin]; [|exact Hin].
    now rewrite String.eqb_refl in E.
Qed.

(** The dictionaries the loop builds are the breakdowns of the specification:
    the labels in order of first appearance, each with the weights of its
    holdings added in portfolio order. *)
Lemma fold_bump_breakdown (label_of : Stock F -> string) (known : list (Stock F * F)) :
  fold_left (bump label_of) known [] = breakdown label_of known.
Proof.
  induction known as [|h known IH] using rev_ind; [reflexivity|].
  rewrite fold_left_app. simpl. rewrite IH. clear IH.
  unfold bump, breakdown, labels, dict_get_default.
  rewrite map_app. simpl. rewrite dedup_snoc, dict_get_tabulate.
  set (l := label_of (fst h)).
  set (labs := dedup (map (fun h0 => label_of (fst h0)) known)).
  assert (Hin : existsb (String.eqb l) labs
                = existsb (String.eqb l) (map (fun h0 => label_of (fst h0)) known)).
  { apply eq_true_iff_eq. rewrite !existsb_eqb_In. apply In_dedup. }
  rewrite <- Hin.
  destruct (existsb (String.eqb l) labs) eqn:Hex.
  - rewrite dict_set_tabulate_present;
      [|apply NoDup_dedup|now apply existsb_eqb_In].
    apply map_ext. intros lab. rewrite group_weight_snoc. fold l.
    rewrite (String.eqb_sym lab l).
    destruct (String.eqb l lab) eqn:E; [|reflexivity].
    apply String.eqb_eq in E. now subst.
  - assert (Hzero : group_weight label_of known l = zero).
    { unfold group_weight.
      replace (filter (fun h0 => String.eqb (label_of (fst h0)) l) known) with
        (@nil (Stock F * F)); [reflexivity|].
      symmetry. apply filter_none. intros h0 Hh0.
      destruct (String.eqb (label_of (fst h0)) l) eqn:E; [|reflexivity].
      apply String.eqb_eq in E.
      assert (Hl : In l labs).
      { apply In_dedup. rewrite <- E. now apply (in_map (fun h1 => label_of (fst h1))). }
      apply existsb_eqb_In in Hl. congruence. }
    rewrite dict_set_fresh.
    + rewrite map_app. simpl. rewrite group_weight_snoc. fold l.
      rewrite String.eqb_refl, Hzero. f_equal.
      apply map_ext_in. intros lab Hlab. rewrite group_weight_snoc. fold l.
      destruct (String.eqb l lab) eqn:E; [|reflexivity].
      apply String.eqb_eq in E. subst lab.
      apply existsb_eqb_In in Hlab. congruence.
    + now rewrite dict_get_tabulate, Hex.
Qed.

End BreakdownFacts.

(** ** Analysis: the report against the specification *)

Section ReportFacts.

Context {F : Type} `{Number F}.

Lemma final_acc_spec (catalog : dict (Stock F)) (portfolio : dict F) :
  let total_weight := sum (values portfolio) in
  let known := known_holdings catalog portfolio in
  let acc := fold_left (accumulate catalog total_weight) portfolio acc_init in
  acc_beta acc = weighted s_beta catalog portfolio /\
  acc_return acc = weighted s_return catalog portfolio /\
  acc_volatility acc = weighted s_volatility catalog portfolio /\
  sectors acc = breakdown s_sector known /\
  risk_levels acc = breakdown s_risk known.
Proof.
  intros total_weight known acc.
  destruct (fold_accumulate catalog total_weight portfolio acc_init)
    as (Hb & Hr & Hv & Hs & Hk).
  fold acc known in Hb, Hr, Hv, Hs, Hk.
  change (sectors acc_init) with (@nil (string * F)) in Hs.
  change (risk_levels acc_init) with (@nil (string * F)) in Hk.
  rewrite fold_bump_breakdown in Hs, Hk.
  repeat split; assumption.
Qed.

(** The report of a valid portfolio, field by field: the total weight as
    it is, the three weighted metrics rounded to two decimals, the tier of
    the unrounded weighted beta, and the two breakdowns in percent of the
    total weight with one decimal. *)
Lemma analyze_portfolio_spec (catalog : dict (Stock F)) (download : Provider F)
    (portfolio : dict F) :
  portfolio <> [] ->
  eqb (sum (values portfolio)) zero = false ->
  let total_weight := sum (values portfolio) in
  let known := known_holdings catalog portfolio in
  analyze_portfolio catalog download portfolio =
  Return (Analysis
    {| total_allocation := total_weight;
       weighted_beta := round_ndigits (weighted s_beta catalog portfolio) 2;
       weighted_return := round_ndigits (weighted s_return catalog portfolio) 2;
       weighted_volatility := round_ndigits (weighted s_volatility catalog portfolio) 2;
       portfolio_risk := classify (weighted s_beta catalog portfolio);
       sector_breakdown :=
         format_1f (percentages total_weight (breakdown s_sector known));
       risk_breakdown :=
         format_1f (percentages total_weight (breakdown s_risk known)) |}).
Proof.
  intros Hne Hz total_weight known.
  rewrite (analyze_portfolio_valid catalog download portfolio Hne Hz).
  destruct (final_acc_spec catalog portfolio) as (Hb & Hr & Hv & Hs & Hk).
  unfold sector_percentages, risk_percentages.
  fold total_weight known in Hb, Hr, Hv, Hs, Hk |- *.
  now rewrite Hb, Hr, Hv, Hs, Hk.
Qed.

(** A report is only ever given for a valid portfolio. *)
Lemma analysis_valid (catalog : dict (Stock F)) (download : Provider F)
    (portfolio : dict F) (report : Report F) :
  analyze_portfolio catalog download portfolio = Return (Analysis report) ->
  portfolio <> [] /\ eqb (sum (values portfolio)) zero = false.
Proof.
  intros Hrun. destruct portfolio as [|item rest]; [discriminate|].
  split; [discriminate|].
  destruct (eqb (sum (values (item :: rest))) zero) eqn:Hz; [|reflexivity].
  rewrite analyze_portfolio_zero in Hrun; [discriminate|discriminate|exact Hz].
Qed.

End ReportFacts.

(** ** The engine on exact rationals *)

Open Scope Q_scope.

Lemma Qsum_acc (xs : list Q) (a : Q) : fold_left Qplus xs a == a + fold_left Qplus xs 0.
Proof.
  revert a. induction xs as [|x xs IH]; intros a; simpl.
  - ring.
  - rewrite (IH (a + x)), (IH (0 + x)). ring.
Qed.

Lemma Qsum_cons (x : Q) (xs : list Q) : sum (x :: xs) == x + sum xs.
Proof.
  unfold sum, zero. simpl. rewrite Qsum_acc. ring.
Qed.










Lemma Q_classify_compat (x y : Q) : x == y -> classify x = classify y.
Proof.
  intros E. unfold classify. simpl. unfold Q_gtb.
  assert (H13 : (1.3 ?= x) = (1.3 ?= y)) by now rewrite E.
  assert (H08 : (0.8 ?= x) = (0.8 ?= y)) by now rewrite E.
  now rewrite H13, H08.
Qed.

(** In exact arithmetic a single holding has the beta of its ticker,
    whatever its non-zero weight. *)
Lemma Q_single_holding_tier (beta weight : Q) :
  ~ weight == 0 -> single_holding_tier beta weight (classify beta).
Proof.
  intros Hw download.
  assert (Hz : eqb (sum (values [("SYN"%string, weight)])) zero = false).
  { apply not_true_is_false. intros E. apply Qeq_bool_eq in E.
    apply Hw. rewrite <- E. unfold sum, zero. simpl. ring. }
  rewrite (analyze_portfolio_valid (synthetic beta) download
             [("SYN"%string, weight)]) by (discriminate || exact Hz).
  eexists. split; [reflexivity|]. simpl.
  apply Q_classify_compat. unfold sum, zero. simpl. field.
  intros E. apply Hw. rewrite <- E. ring.
Qed.

Close Scope Q_scope.

(** ** The engine on binary64 floats *)

Lemma float_literals :
  float_of_Q 1.3 = 1.3%float /\ float_of_Q 0.8 = 0.8%float /\
  float_of_Q 0 = 0%float /\ float_of_Q 100 = 100%float.
Proof. repeat split; vm_compute; reflexivity. Qed.

Lemma float_classify (x : float) :
  classify x =
  if PrimFloat.ltb 1.3 x then High else if PrimFloat.ltb 0.8 x then Medium else Low.
Proof.
  destruct float_literals as (H13 & H08 & _).
  unfold classify. simpl. now rewrite H13, H08.
Qed.

(** Evaluates the analysis of a concrete portfolio, for any provider. *)
Ltac evaluate_report :=
  match goal with
  | |- exists report, analyze_portfolio ?c ?d ?p = Return (Analysis report) /\ _ =>
      let v := eval vm_compute in (analyze_portfolio c offline p) in
      match v with
      | Return (Analysis ?r) =>
          exists r; split;
          [try rewrite (analyze_portfolio_provider c d offline); vm_compute; reflexivity|]
      end
  end.

(** Two floats that [==] tells apart are different. *)
Ltac float_differ :=
  let E := fresh "E" in
  intro E;
  match type of E with
  | ?a = _ => apply (f_equal (PrimFloat.eqb a)) in E; vm_compute in E; discriminate E
  end.

Open Scope string_scope.

(** C1. [analyze_portfolio] answers the empty map with the message of the
    empty-portfolio error, and a non-empty map whose weights sum to exactly
    zero ([total_weight == 0]) with the message of the zero-weight error.
    The answer is the error alone: an [Error] outcome carries no report. *)
Theorem validation_errors (catalog : dict (Stock float)) (download : Provider float)
    (portfolio : dict float) :
  (portfolio = [] ->
   analyze_portfolio catalog download portfolio = Return (Error EmptyPortfolioError)) /\
  (portfolio <> [] ->
   eqb (sum (values portfolio)) zero = true ->
   analyze_portfolio catalog download portfolio = Return (Error ZeroWeightError)).
Proof.
  split.
  - intros ->. apply analyze_portfolio_empty.
  - apply analyze_portfolio_zero.
Qed.

Lemma validation_errors_witness :
  analyze_portfolio stocks offline [] = Return (Error EmptyPortfolioError) /\
  analyze_portfolio stocks offline [("AAPL", 0%float); ("GOOGL", 0%float)]
  = Return (Error ZeroWeightError).
Proof.
  split.
  - apply (proj1 (validation_errors stocks offline [])). reflexivity.
  - apply (proj2 (validation_errors stocks offline
                    [("AAPL", 0%float); ("GOOGL", 0%float)])).
    + discriminate.
    + vm_compute. reflexivity.
Defined.

(** C2. The tier of every report is [High] when the weighted beta (in full
    precision, before it is rounded for display) is strictly above 1.3,
    else [Medium] when it is strictly above 0.8, else [Low].  A single
    holding of a ticker whose catalog beta is 1.3 is [Medium], 1.31 is
    [High], 0.8 is [Low] and 0.81 is [Medium]: on floats for a holding of
    weight 100, and in exact arithmetic for every non-zero weight. *)
Theorem risk_tier_thresholds :
  (forall (catalog : dict (Stock float)) (download : Provider float)
          (portfolio : dict float) (report : Report float),
      analyze_portfolio catalog download portfolio = Return (Analysis report) ->
      portfolio_risk report =
      if PrimFloat.ltb 1.3 (weighted s_beta catalog portfolio) then High
      else if PrimFloat.ltb 0.8 (weighted s_beta catalog portfolio) then Medium
      else Low) /\
  (single_holding_tier 1.3 100%float Medium /\
   single_holding_tier 1.31 100%float High /\
   single_holding_tier 0.8 100%float Low /\
   single_holding_tier 0.81 100%float Medium) /\
  (forall weight : Q,
      ~ (weight == 0)%Q ->
      single_holding_tier 1.3 weight Medium /\
      single_holding_tier 1.31 weight High /\
      single_holding_tier 0.8 weight Low /\
      single_holding_tier 0.81 weight Medium).
Proof.
  split; [|split].
  - intros catalog download portfolio report Hrun.
    destruct (analysis_valid _ _ _ _ Hrun) as [Hne Hz].
    rewrite (analyze_portfolio_spec catalog download portfolio Hne Hz) in Hrun.
    inversion Hrun; subst report. simpl. apply float_classify.
  - repeat split; intros download; evaluate_report; reflexivity.
  - intros weight Hw. repeat split; now apply Q_single_holding_tier.
Qed.

Lemma risk_tier_thresholds_witness :
  (exists report,
     analyze_portfolio stocks offline [("NVDA", 60%float); ("JNJ", 40%float)]
     = Return (Analysis report) /\
     portfolio_risk report = High /\
     PrimFloat.ltb 1.3 (weighted s_beta stocks [("NVDA", 60%float); ("JNJ", 40%float)])
     = true) /\
  single_holding_tier 1.31 37%Q High.
Proof.
  split.
  - evaluate_report. split; [|vm_compute; reflexivity].
    match goal with
    | |- portfolio_risk ?r = _ =>
        rewrite (proj1 risk_tier_thresholds stocks offline
                   [("NVDA", 60%float); ("JNJ", 40%float)] r)
    end.
    + vm_compute. reflexivity.
    + vm_compute. reflexivity.
  - apply (proj2 (proj2 risk_tier_thresholds) 37%Q).
    vm_compute. discriminate.
Defined.

(** C3, as stated, fails: with half of the weight on the unknown ticker the
    three weighted metrics are half of those of the single holding, since
    the unknown weight stays in the total they are divided by. *)
Lemma unknown_ticker_metrics_differ :
  exists r1 : Report float,
    analyze_portfolio stocks offline [("AAPL", 50%float); ("ZZZZ", 50%float)]
    = Return (Analysis r1) /\
  exists r2 : Report float,
    analyze_portfolio stocks offline [("AAPL", 100%float)] = Return (Analysis r2) /\
    weighted_beta r1 <> weighted_beta r2 /\
    weighted_return r1 <> weighted_return r2 /\
    weighted_volatility r1 <> weighted_volatility r2.
Proof.
  evaluate_report. evaluate_report.
  repeat split; float_differ.
Qed.

(** C3, amended.  The analysis of AAPL 50, ZZZZ 50 reports the catalog
    values of AAPL scaled by 50/100: beta 0.6, return 7.5, volatility 0.12
    (0.125 rounded to two decimals).  ZZZZ is in no breakdown, and the total
    weight stays 100: for any two weights, the weighted beta is the catalog
    beta of AAPL times the share of AAPL in the sum of both. *)
Theorem unknown_ticker_dropped :
  (forall download : Provider float, exists report,
      analyze_portfolio stocks download [("AAPL", 50%float); ("ZZZZ", 50%float)]
      = Return (Analysis report) /\
      total_allocation report = 100%float /\
      weighted_beta report = 0.6%float /\
      weighted_return report = 7.5%float /\
      weighted_volatility report = 0.12%float /\
      sector_breakdown report = [("Technology", 50%float)] /\
      risk_breakdown report = [("Medium", 50%float)]) /\
  (forall download : Provider float, exists report,
      analyze_portfolio stocks download [("AAPL", 100%float)]
      = Return (Analysis report) /\
      total_allocation report = 100%float /\
      weighted_beta report = 1.2%float /\
      weighted_return report = 15%float /\
      weighted_volatility report = 0.25%float) /\
  (forall w u : float,
      known_holdings stocks [("AAPL", w); ("ZZZZ", u)]
      = known_holdings stocks [("AAPL", w)] /\
      weighted s_beta stocks [("AAPL", w); ("ZZZZ", u)]
      = (0 + 1.2 * (w / (0 + w + u)))%float).
Proof.
  split; [|split].
  - intros download. evaluate_report. repeat split.
  - intros download. evaluate_report. repeat split.
  - intros w u. split; [reflexivity|].
    unfold weighted, sum, contribution. simpl.
    assert (Hb : float_of_Q 1.2 = 1.2%float) by (vm_compute; reflexivity).
    destruct float_literals as (_ & _ & H0 & _).
    unfold zero. simpl. now rewrite Hb, H0.
Qed.

(** C5. The answer of [analyze_portfolio] does not depend on the provider:
    two providers, whatever each of them does (return prices, return empty
    frames, raise on every request), lead to the same answer; the call
    always returns; and a valid portfolio gets one and the same report from
    both, with the weighted statistics of the catalog. *)
Theorem provider_independence (catalog : dict (Stock float))
    (d1 d2 : Provider float) (portfolio : dict float) :
  analyze_portfolio catalog d1 portfolio = analyze_portfolio catalog d2 portfolio /\
  (exists outcome, analyze_portfolio catalog d1 portfolio = Return outcome) /\
  (portfolio <> [] ->
   eqb (sum (values portfolio)) zero = false ->
   exists report,
     analyze_portfolio catalog d1 portfolio = Return (Analysis report) /\
     analyze_portfolio catalog d2 portfolio = Return (Analysis report) /\
     weighted_beta report = round_ndigits (weighted s_beta catalog portfolio) 2 /\
     weighted_return report = round_ndigits (weighted s_return catalog portfolio) 2 /\
     weighted_volatility report
     = round_ndigits (weighted s_volatility catalog portfolio) 2).
Proof.
  split; [apply analyze_portfolio_provider|].
  split; [apply analyze_portfolio_returns|].
  intros Hne Hz.
  rewrite (analyze_portfolio_spec catalog d1 portfolio Hne Hz).
  rewrite (analyze_portfolio_spec catalog d2 portfolio Hne Hz).
  eexists. repeat split.
Qed.

Lemma provider_independence_witness :
  exists report,
    analyze_portfolio stocks offline [("AAPL", 60%float); ("JPM", 40%float)]
    = Return (Analysis report) /\
    analyze_portfolio stocks
      (fun _ => Return {| hist_getitem := fun _ => Raise "KeyError";
                          hist_frame := {| df_empty := true; df_close := Return [] |} |})
      [("AAPL", 60%float); ("JPM", 40%float)]
    = Return (Analysis report).
Proof.
  destruct (provider_independence stocks offline
              (fun _ => Return {| hist_getitem := fun _ => Raise "KeyError";
                                  hist_frame := {| df_empty := true;
                                                   df_close := Return [] |} |})
              [("AAPL", 60%float); ("JPM", 40%float)]) as (_ & _ & Hreport).
  destruct Hreport as (report & H1 & H2 & _).
  - discriminate.
  - vm_compute. reflexivity.
  - exists report. split; assumption.
Defined.

(** C6. [fetch_live_data_batch] always returns.  When the provider raises,
    or anything else in the [try] block does, every requested symbol is
    mapped to the absent entry; and a symbol whose frame is empty is mapped
    to the absent entry. *)
Theorem fetch_never_raises (download : Provider float) (symbols : list string) :
  exists data,
    fetch_live_data_batch download symbols = Return data /\
    (forall e, download symbols = Raise e ->
       forall s, In s symbols -> dict_get data s = Some absent) /\
    (forall e, fst (fetch_try download symbols []) = Raise e ->
       forall s, In s symbols -> dict_get data s = Some absent) /\
    (forall hist s df,
       download symbols = Return hist ->
       In s symbols ->
       select_frame hist symbols s = Return df ->
       df_empty df = true ->
       dict_get data s = Some absent).
Proof.
  unfold fetch_live_data_batch.
  destruct (fetch_try download symbols []) as [[e|[]] data] eqn:Htry.
  - exists (fetch_except symbols data). split; [reflexivity|].
    repeat split; intros; now apply fetch_except_absent.
  - exists data. split; [reflexivity|]. repeat split.
    + intros e Hd. rewrite (fetch_try_download_raises _ _ _ _ Hd) in Htry.
      discriminate.
    + intros e He. discriminate.
    + intros hist s df Hd Hin Hsel Hemp.
      rewrite (fetch_try_download_returns _ _ _ _ Hd) in Htry.
      apply (for_each_fetch_empty hist symbols s df Hsel Hemp symbols [] data);
        [now left|exact Htry].
Qed.

Lemma fetch_never_raises_witness :
  (exists data,
     fetch_live_data_batch (F := float) offline ["AAPL"; "JPM"] = Return data /\
     dict_get data "JPM" = Some absent) /\
  (exists data,
     fetch_live_data_batch
       (fun _ =>
          Return {| hist_getitem := fun symbol =>
                      if String.eqb symbol "AAPL"
                      then Return {| df_empty := false;
                                     df_close := Return [100%float; 101.5%float] |}
                      else Return {| df_empty := true; df_close := Return [] |};
                    hist_frame := {| df_empty := true; df_close := Return [] |} |})
       ["AAPL"; "JPM"] = Return data /\
     dict_get data "JPM" = Some absent).
Proof.
  split.
  - destruct (fetch_never_raises offline ["AAPL"; "JPM"]) as (data & Hdata & Hraise & _).
    exists data. split; [exact Hdata|].
    apply (Hraise "ConnectionError").
    + reflexivity.
    + simpl. auto.
  - match goal with
    | |- exists data, fetch_live_data_batch ?d ?l = _ /\ _ =>
        destruct (fetch_never_raises d l) as (data & Hdata & _ & _ & Hempty)
    end.
    exists data. split; [exact Hdata|].
    eapply Hempty.
    + reflexivity.
    + simpl. auto.
    + reflexivity.
    + reflexivity.
Defined.

(** C7. The analysis of the single holding AAPL 100 reports the catalog
    beta and the catalog expected return of AAPL as they are. *)
Theorem single_holding_passthrough (download : Provider float) :
  exists report entry,
    analyze_portfolio stocks download [("AAPL", 100%float)] = Return (Analysis report) /\
    dict_get stocks "AAPL" = Some entry /\
    weighted_beta report = s_beta entry /\
    weighted_return report = s_return entry /\
    weighted s_beta stocks [("AAPL", 100%float)] = s_beta entry /\
    weighted s_return stocks [("AAPL", 100%float)] = s_return entry.
Proof.
  assert (Hrun : exists report,
    analyze_portfolio stocks download [("AAPL", 100%float)] = Return (Analysis report) /\
    weighted_beta report = 1.2%float /\ weighted_return report = 15%float).
  { evaluate_report. split; reflexivity. }
  destruct Hrun as (report & Hrun & Hb & Hr).
  exists report.
  exists (mk_stock "Apple Inc." "Technology" 1.2 15.0 "Medium" 0.25).
  split; [exact Hrun|]. split; [reflexivity|].
  rewrite Hb, Hr. repeat split; vm_compute; reflexivity.
Qed.

(** C8, as stated, fails: the total allocation is reported as it is, and
    the breakdown percentages are given with one decimal, not two. *)
Lemma display_rounding_not_uniform :
  exists report : Report float,
    analyze_portfolio stocks offline [("AAPL", 0.125%float); ("JPM", 0.25%float)]
    = Return (Analysis report) /\
    total_allocation report = 0.375%float /\
    round_ndigits (total_allocation report) 2 = 0.38%float /\
    total_allocation report <> round_ndigits (total_allocation report) 2 /\
    sector_breakdown report = [("Technology", 33.3%float); ("Financial", 66.7%float)] /\
    map (fun '(label, pct) => (label, round_ndigits pct 2))
      (sector_percentages stocks [("AAPL", 0.125%float); ("JPM", 0.25%float)])
    = [("Technology", 33.33%float); ("Financial", 66.67%float)] /\
    33.3%float <> 33.33%float /\ 66.7%float <> 66.67%float.
Proof.
  evaluate_report.
  repeat split; try (vm_compute; reflexivity); float_differ.
Qed.

(** C8, amended.  In every report the weighted beta, return and volatility
    are the full-precision weighted sums rounded to two decimals; every
    breakdown percentage is the share of its label in the total weight,
    times 100, with one decimal; and the total allocation is the sum of the
    weights, not rounded. *)
Theorem display_rounding (catalog : dict (Stock float)) (download : Provider float)
    (portfolio : dict float) (report : Report float) :
  analyze_portfolio catalog download portfolio = Return (Analysis report) ->
  let total_weight := sum (values portfolio) in
  let known := known_holdings catalog portfolio in
  total_allocation report = total_weight /\
  weighted_beta report = round_ndigits (weighted s_beta catalog portfolio) 2 /\
  weighted_return report = round_ndigits (weighted s_return catalog portfolio) 2 /\
  weighted_volatility report
  = round_ndigits (weighted s_volatility catalog portfolio) 2 /\
  sector_breakdown report
  = map (fun sector =>
           (sector,
            round_ndigits (group_weight s_sector known sector / total_weight * 100)%float 1))
        (labels s_sector known) /\
  risk_breakdown report
  = map (fun risk =>
           (risk,
            round_ndigits (group_weight s_risk known risk / total_weight * 100)%float 1))
        (labels s_risk known).
Proof.
  intros Hrun total_weight known.
  destruct (analysis_valid _ _ _ _ Hrun) as [Hne Hz].
  rewrite (analyze_portfolio_spec catalog download portfolio Hne Hz) in Hrun.
  inversion Hrun; subst report; clear Hrun. simpl.
  fold total_weight known.
  destruct float_literals as (_ & _ & _ & H100).
  unfold format_1f, percentages, breakdown.
  rewrite !map_map. simpl. rewrite H100.
  repeat split.
Qed.

Lemma display_rounding_witness :
  exists report : Report float,
    analyze_portfolio stocks offline [("AAPL", 0.125%float); ("JPM", 0.25%float)]
    = Return (Analysis report) /\
    total_allocation report = sum [0.125%float; 0.25%float] /\
    weighted_volatility report
    = round_ndigits
        (weighted s_volatility stocks [("AAPL", 0.125%float); ("JPM", 0.25%float)]) 2.
Proof.
  evaluate_report.
  match goal with
  | |- total_allocation ?r = _ /\ _ =>
      destruct (display_rounding stocks offline
                  [("AAPL", 0.125%float); ("JPM", 0.25%float)] r)
        as (Ht & _ & _ & Hv & _)
  end.
  - vm_compute. reflexivity.
  - split; [exact Ht|exact Hv].
Defined.

(** C9. A non-empty portfolio with a non-zero total, none of whose symbols
    is in the catalog, gets a report: the three weighted metrics are 0, the
    tier is [Low], and both breakdowns are empty. *)
Theorem no_known_symbol (catalog : dict (Stock float)) (download : Provider float)
    (portfolio : dict float) :
  portfolio <> [] ->
  eqb (sum (values portfolio)) zero = false ->
  (forall symbol, In symbol (keys portfolio) -> dict_get catalog symbol = None) ->
  exists report,
    analyze_portfolio catalog download portfolio = Return (Analysis report) /\
    weighted_beta report = 0%float /\
    weighted_return report = 0%float /\
    weighted_volatility report = 0%float /\
    portfolio_risk report = Low /\
    sector_breakdown report = [] /\
    risk_breakdown report = [].
Proof.
  intros Hne Hz Hnone.
  rewrite (analyze_portfolio_spec catalog download portfolio Hne Hz).
  unfold weighted. rewrite (known_holdings_none catalog portfolio Hnone).
  eexists. split; [reflexivity|]. simpl.
  repeat split; vm_compute; reflexivity.
Qed.

Lemma no_known_symbol_witness :
  exists report,
    analyze_portfolio stocks offline [("ZZZZ", 60%float); ("QQQQ", 40%float)]
    = Return (Analysis report) /\
    weighted_beta report = 0%float /\
    portfolio_risk report = Low /\
    sector_breakdown report = [].
Proof.
  destruct (no_known_symbol stocks offline [("ZZZZ", 60%float); ("QQQQ", 40%float)])
    as (report & Hrun & Hb & _ & _ & Ht & Hs & _).
  - discriminate.
  - vm_compute. reflexivity.
  - intros symbol [<-|[<-|[]]]; reflexivity.
  - exists report. repeat split; assumption.
Defined.

(** C10. [analyze_portfolio] answers with an error for the empty map and
    for a zero total only.  The sign of the weights is never looked at: a
    map with a negative weight and a non-zero total gets a report. *)
Theorem validation_rejects_only (catalog : dict (Stock float))
    (download : Provider float) (portfolio : dict float) :
  ((exists message,
      analyze_portfolio catalog download portfolio = Return (Error message))
   <-> portfolio = [] \/ eqb (sum (values portfolio)) zero = true) /\
  ((exists symbol weight,
      In (symbol, weight) portfolio /\ PrimFloat.ltb weight 0 = true) ->
   eqb (sum (values portfolio)) zero = false ->
   exists report, analyze_portfolio catalog download portfolio = Return (Analysis report)).
Proof.
  split; [apply analyze_portfolio_error_iff|].
  intros (symbol & weight & Hin & _) Hz.
  assert (Hne : portfolio <> []) by (intros ->; destruct Hin).
  rewrite (analyze_portfolio_valid catalog download portfolio Hne Hz).
  eexists. reflexivity.
Qed.

Lemma validation_rejects_only_witness :
  exists report,
    analyze_portfolio stocks offline [("AAPL", (-50)%float); ("MSFT", 150%float)]
    = Return (Analysis report).
Proof.
  apply (proj2 (validation_rejects_only stocks offline
                  [("AAPL", (-50)%float); ("MSFT", 150%float)])).
  - exists "AAPL", (-50)%float. split; [simpl; auto|vm_compute; reflexivity].
  - vm_compute. reflexivity.
Defined.


(** X15. In exact arithmetic, for every non-empty map of non-negative
    weights whose sum is not zero, the percentages of either breakdown,
    before they are formatted, sum to at most 100, and to 100 exactly when
    every symbol outside the catalog has weight zero.  On floats this holds
    up to rounding only: the percentages of AAPL 3, JPM 10, both known, sum
    to 100.00000000000001, and those of six equal known holdings to
    99.99999999999997. *)
Open Scope Q_scope.



Close Scope Q_scope.

Open Scope list_scope.

(** ** Strings *)

Lemma upper_char_idem (c : ascii) : upper_char (upper_char c) = upper_char c.
Proof. destruct c as [[] [] [] [] [] [] [] []]; reflexivity. Qed.

Lemma is_space_upper_char (c : ascii) : is_space (upper_char c) = is_space c.
Proof. destruct c as [[] [] [] [] [] [] [] []]; reflexivity. Qed.

Lemma upper_idem (s : string) : upper (upper s) = upper s.
Proof.
  induction s as [|c s IH]; simpl; [reflexivity|].
  now rewrite upper_char_idem, IH.
Qed.

Lemma lstrip_upper (s : string) : lstrip (upper s) = upper (lstrip s).
Proof.
  induction s as [|c s IH]; simpl; [reflexivity|].
  rewrite is_space_upper_char. destruct (is_space c); [exact IH|reflexivity].
Qed.

Lemma rstrip_upper (s : string) : rstrip (upper s) = upper (rstrip s).
Proof.
  induction s as [|c s IH]; simpl; [reflexivity|].
  rewrite IH, is_space_upper_char.
  destruct (rstrip s); simpl; [destruct (is_space c)|]; reflexivity.
Qed.

Lemma strip_upper (s : string) : strip (upper s) = upper (strip s).
Proof. unfold strip. now rewrite lstrip_upper, rstrip_upper. Qed.

Lemma lstrip_starts_clean (s : string) : starts_clean (lstrip s).
Proof.
  induction s as [|c s IH]; simpl; [exact I|].
  destruct (is_space c) eqn:E; [exact IH|exact E].
Qed.

Lemma lstrip_clean (s : string) : starts_clean s -> lstrip s = s.
Proof. destruct s as [|c s]; simpl; [reflexivity|]. now intros ->. Qed.

Lemma rstrip_starts_clean (s : string) : starts_clean s -> starts_clean (rstrip s).
Proof.
  destruct s as [|c s]; simpl; [exact id|]. intros Hc.
  destruct (rstrip s); simpl; [rewrite Hc|]; exact Hc.
Qed.

Lemma rstrip_idem (s : string) : rstrip (rstrip s) = rstrip s.
Proof.
  induction s as [|c s IH]; simpl; [reflexivity|].
  destruct (rstrip s) as [|c' kept] eqn:E.
  - destruct (is_space c) eqn:Ec; simpl; [reflexivity|now rewrite Ec].
  - simpl in *. rewrite IH. reflexivity.
Qed.

Lemma strip_idem (s : string) : strip (strip s) = strip s.
Proof.
  unfold strip.
  rewrite (lstrip_clean (rstrip (lstrip s)))
    by apply rstrip_starts_clean, lstrip_starts_clean.
  apply rstrip_idem.
Qed.

Lemma split_length (sep : ascii) (s : string) :
  List.length (split sep s) = S (count_char sep s).
Proof.
  induction s as [|c s IH]; simpl; [reflexivity|].
  destruct (Ascii.eqb c sep); simpl; [now rewrite IH|].
  destruct (split sep s); simpl in *; [discriminate|exact IH].
Qed.

Lemma contains_count (sep : ascii) (s : string) :
  contains sep s = negb (count_char sep s =? 0)%nat.
Proof.
  induction s as [|c s IH]; simpl; [reflexivity|].
  destruct (Ascii.eqb c sep); simpl; [reflexivity|exact IH].
Qed.

(** The pieces of a text without a character are without it. *)
Lemma split_contains (c sep : ascii) (s : string) :
  contains c s = false ->
  forall piece, In piece (split sep s) -> contains c piece = false.
Proof.
  induction s as [|a s IH]; simpl.
  - intros _ piece [<-|[]]. reflexivity.
  - intros Hc. apply orb_false_iff in Hc. destruct Hc as [Ha Hs].
    specialize (IH Hs).
    destruct (Ascii.eqb a sep).
    + intros piece [<-|Hin]; [reflexivity|now apply IH].
    + destruct (split sep s) as [|p ps].
      * intros piece [<-|[]]. simpl. now rewrite Ha.
      * intros piece [<-|Hin].
        -- simpl. rewrite Ha. apply IH. now left.
        -- apply IH. now right.
Qed.

Lemma lstrip_contains (c : ascii) (s : string) :
  contains c s = false -> contains c (lstrip s) = false.
Proof.
  induction s as [|a s IH]; simpl; [reflexivity|].
  intros Hc. destruct (is_space a); [|exact Hc].
  apply orb_false_iff in Hc. now apply IH.
Qed.

Lemma rstrip_contains (c : ascii) (s : string) :
  contains c s = false -> contains c (rstrip s) = false.
Proof.
  induction s as [|a s IH]; simpl; [reflexivity|].
  intros Hc. apply orb_false_iff in Hc. destruct Hc as [Ha Hs].
  specialize (IH Hs).
  destruct (rstrip s); simpl in *.
  - destruct (is_space a); simpl; [reflexivity|now rewrite Ha].
  - now rewrite Ha.
Qed.

Lemma strip_contains (c : ascii) (s : string) :
  contains c s = false -> contains c (strip s) = false.
Proof. intros Hc. now apply rstrip_contains, lstrip_contains. Qed.

(** ** The portfolio text *)

Lemma dict_set_keys_present {V : Type} (d : dict V) (k : string) (v : V) :
  dict_mem d k = true -> keys (dict_set d k v) = keys d.
Proof.
  unfold dict_mem. induction d as [|[k' v'] d IH]; simpl; [discriminate|].
  destruct (String.eqb k' k) eqn:E; simpl; [reflexivity|].
  intros Hm. now rewrite IH.
Qed.

Lemma dict_mem_keys {V : Type} (d : dict V) (k : string) :
  dict_mem d k = true <-> In k (keys d).
Proof.
  unfold dict_mem. induction d as [|[k' v'] d IH]; simpl.
  - split; [discriminate|tauto].
  - destruct (String.eqb k' k) eqn:E.
    + apply String.eqb_eq in E. subst. tauto.
    + apply String.eqb_neq in E. rewrite IH. tauto.
Qed.

(** Assigning to a key keeps the keys distinct, and adds at most that key. *)
Lemma dict_set_keys {V : Type} (d : dict V) (k : string) (v : V) :
  NoDup (keys d) ->
  NoDup (keys (dict_set d k v)) /\
  (forall k', In k' (keys (dict_set d k v)) <-> k' = k \/ In k' (keys d)).
Proof.
  intros Hnd. destruct (dict_mem d k) eqn:Hm.
  - rewrite (dict_set_keys_present d k v Hm). split; [exact Hnd|].
    apply dict_mem_keys in Hm. intros k'. split; [tauto|].
    intros [->|Hin]; assumption.
  - assert (Hget : dict_get d k = None).
    { unfold dict_mem in Hm. destruct (dict_get d k); [discriminate|reflexivity]. }
    assert (Hnotin : ~ In k (keys d)).
    { intros Hin. apply dict_mem_keys in Hin. congruence. }
    rewrite (dict_set_fresh d k v Hget). unfold keys. rewrite map_app. simpl.
    split.
    + apply NoDup_app; [exact Hnd|repeat constructor; simpl; tauto|].
      intros x Hx [<-|[]]. contradiction.
    + intros k'. rewrite in_app_iff. simpl. split; [intros [?|[?|[]]]|]; auto.
      intros [->|?]; auto.
Qed.

Section PortfolioTextFacts.

Context {F : Type} `{Number F}.

Variable to_float : string -> result F.

Lemma parse_line_returns (portfolio : dict F) (line : string) :
  (exists portfolio', parse_line to_float portfolio line = Return portfolio')
  <-> line_ok to_float line.
Proof.
  unfold parse_line, line_ok. destruct (contains ":" line).
  - split.
    + intros [portfolio' Hrun] _.
      destruct (split ":" line) as [|sym [|wt [|more rest]]]; try discriminate.
      destruct (to_float (strip wt)) as [e|weight] eqn:Hw; [discriminate|].
      now exists sym, wt, weight.
    + intros Hok. destruct (Hok eq_refl) as (sym & wt & weight & Hs & Hw).
      rewrite Hs, Hw. simpl. eauto.
  - split; [discriminate|eauto].
Qed.

Lemma parse_lines_returns (lines : list string) :
  forall portfolio : dict F,
    (exists portfolio', parse_lines to_float lines portfolio = Return portfolio')
    <-> forall line, In line lines -> line_ok to_float line.
Proof.
  induction lines as [|line rest IH]; intros portfolio; simpl.
  - split; [intros _ line []|eauto].
  - split.
    + intros [portfolio' Hrun] l [<-|Hin].
      * apply (parse_line_returns portfolio).
        destruct (parse_line to_float portfolio line); [discriminate|eauto].
      * destruct (parse_line to_float portfolio line) as [e|p1]; [discriminate|].
        simpl in Hrun. apply (proj1 (IH p1)); eauto.
    + intros Hall.
      destruct (proj2 (parse_line_returns portfolio line)) as [p1 H1];
        [apply Hall; now left|].
      rewrite H1. simpl. apply IH. intros l Hl. apply Hall. now right.
Qed.

Lemma parse_line_no_colon (portfolio : dict F) (line : string) :
  contains ":" line = false -> parse_line to_float portfolio line = Return portfolio.
Proof. intros Hc. unfold parse_line. now rewrite Hc. Qed.

Lemma parse_lines_skips (lines : list string) :
  forall portfolio : dict F,
    parse_lines to_float lines portfolio
    = parse_lines to_float (filter (contains ":") lines) portfolio.
Proof.
  induction lines as [|line rest IH]; intros portfolio; simpl; [reflexivity|].
  destruct (contains ":" line) eqn:Hc; simpl.
  - destruct (parse_line to_float portfolio line); simpl; [reflexivity|apply IH].
  - rewrite (parse_line_no_colon _ _ Hc). simpl. apply IH.
Qed.

Lemma parse_line_normalised (portfolio portfolio' : dict F) (line : string) :
  normalised portfolio ->
  parse_line to_float portfolio line = Return portfolio' ->
  normalised portfolio'.
Proof.
  intros [Hnd Hk] Hrun. unfold parse_line in Hrun.
  destruct (contains ":" line); [|inversion Hrun; subst; now split].
  destruct (split ":" line) as [|sym [|wt [|more rest]]]; try discriminate.
  destruct (to_float (strip wt)) as [e|weight]; [discriminate|].
  simpl in Hrun. inversion Hrun; subst portfolio'.
  destruct (dict_set_keys portfolio (upper (strip sym)) weight Hnd) as [Hnd' Hin'].
  split; [exact Hnd'|]. intros k Hin. apply Hin' in Hin.
  destruct Hin as [->|Hin]; [|now apply Hk].
  split; [apply upper_idem|]. now rewrite strip_upper, strip_idem.
Qed.

Lemma parse_lines_normalised (lines : list string) :
  forall portfolio portfolio' : dict F,
    normalised portfolio ->
    parse_lines to_float lines portfolio = Return portfolio' ->
    normalised portfolio'.
Proof.
  induction lines as [|line rest IH]; intros portfolio portfolio' Hn Hrun; simpl in Hrun.
  - inversion Hrun; subst. exact Hn.
  - destruct (parse_line to_float portfolio line) as [e|p1] eqn:H1; [discriminate|].
    simpl in Hrun. eapply IH; [|exact Hrun].
    eapply parse_line_normalised; eassumption.
Qed.

(** Lines that do not name a key leave its entry as it is. *)
Lemma parse_lines_other (key : string) (lines : list string) :
  (forall line sym wt,
     In line lines -> split ":" line = [sym; wt] -> upper (strip sym) <> key) ->
  forall portfolio portfolio' : dict F,
    parse_lines to_float lines portfolio = Return portfolio' ->
    dict_get portfolio' key = dict_get portfolio key.
Proof.
  induction lines as [|line rest IH]; intros Hother portfolio portfolio' Hrun;
    simpl in Hrun.
  - inversion Hrun; subst. reflexivity.
  - destruct (parse_line to_float portfolio line) as [e|p1] eqn:H1; [discriminate|].
    simpl in Hrun.
    rewrite (IH (fun l sym wt Hl => Hother l sym wt (or_intror Hl)) p1 portfolio' Hrun).
    unfold parse_line in H1.
    destruct (contains ":" line); [|inversion H1; subst; reflexivity].
    destruct (split ":" line) as [|sym [|wt [|more rest']]] eqn:Hs; try discriminate.
    destruct (to_float (strip wt)) as [e|weight]; [discriminate|].
    simpl in H1. inversion H1; subst p1.
    apply dict_get_set_other. apply (Hother line sym wt); [now left|exact Hs].
Qed.

Lemma parse_lines_app (l1 l2 : list string) :
  forall portfolio : dict F,
    parse_lines to_float (l1 ++ l2) portfolio
    = bind (parse_lines to_float l1 portfolio) (parse_lines to_float l2).
Proof.
  induction l1 as [|line rest IH]; intros portfolio; simpl; [reflexivity|].
  destruct (parse_line to_float portfolio line); simpl; [reflexivity|apply IH].
Qed.

End PortfolioTextFacts.

Section ClickFacts.

Context {F : Type} `{Number F}.

Variable to_float : string -> result F.

(** X1. The portfolio text is read without an exception exactly when every
    line that has a colon has one colon only and a weight, stripped, that
    [float] accepts.  A line with two colons, or with a weight [float]
    rejects, makes the whole reading raise, whatever the other lines are. *)
Theorem parse_portfolio_returns_iff (portfolio_text : string) :
  is_ascii portfolio_text = true ->
  ((exists portfolio, parse_portfolio to_float portfolio_text = Return portfolio)
   <-> forall line,
         In line (split "010" (strip portfolio_text)) ->
         contains ":" line = true ->
         count_char ":" line = 1 /\
         exists sym wt weight,
           split ":" line = [sym; wt] /\ to_float (strip wt) = Return weight).
Proof.
  intros _. unfold parse_portfolio. rewrite parse_lines_returns.
  unfold line_ok. split.
  - intros Hok line Hin Hc. destruct (Hok line Hin Hc) as (sym & wt & weight & Hs & Hw).
    split; [|now exists sym, wt, weight].
    pose proof (split_length ":" line) as Hlen. rewrite Hs in Hlen. simpl in Hlen.
    congruence.
  - intros Hok line Hin Hc. now apply Hok.
Qed.

(** X2. The dictionary read from the text has distinct keys, and every key
    is upper-case and has no space around it: symbols are normalised before
    they are looked up in the catalog. *)
Theorem parse_portfolio_normalised (portfolio_text : string) (portfolio : dict F) :
  is_ascii portfolio_text = true ->
  parse_portfolio to_float portfolio_text = Return portfolio ->
  NoDup (keys portfolio) /\
  forall k, In k (keys portfolio) -> upper k = k /\ strip k = k.
Proof.
  intros _ Hrun.
  unfold parse_portfolio in Hrun.
  eapply parse_lines_normalised; [|exact Hrun].
  split; [constructor|intros k []].
Qed.

(** X3. When a symbol is given on several lines, in whatever case and with
    whatever spaces around it, the last of these lines decides its weight. *)
Theorem parse_portfolio_last_wins (portfolio_text : string) (portfolio : dict F)
    (before after : list string) (line sym wt : string) (weight : F) :
  is_ascii portfolio_text = true ->
  split "010" (strip portfolio_text) = before ++ line :: after ->
  split ":" line = [sym; wt] ->
  to_float (strip wt) = Return weight ->
  (forall line' sym' wt',
     In line' after -> split ":" line' = [sym'; wt'] ->
     upper (strip sym') <> upper (strip sym)) ->
  parse_portfolio to_float portfolio_text = Return portfolio ->
  dict_get portfolio (upper (strip sym)) = Some weight.
Proof.
  intros _ Hlines Hs Hw Hlast Hrun. unfold parse_portfolio in Hrun.
  rewrite Hlines, parse_lines_app in Hrun.
  destruct (parse_lines to_float before []) as [e|p1]; [discriminate|].
  simpl in Hrun.
  assert (Hline : parse_line to_float p1 line
                  = Return (dict_set p1 (upper (strip sym)) weight)).
  { unfold parse_line.
    assert (Hc : contains ":" line = true).
    { rewrite contains_count.
      pose proof (split_length ":" line) as Hlen. rewrite Hs in Hlen. simpl in Hlen.
      injection Hlen as Hlen. now rewrite <- Hlen. }
    now rewrite Hc, Hs, Hw. }
  rewrite Hline in Hrun. simpl in Hrun.
  rewrite (parse_lines_other to_float _ after Hlast _ _ Hrun).
  apply dict_get_set_same.
Qed.

(** X4. A click with a text that has no colon anywhere, and a key that is
    not blank, shows "Error: Portfolio is empty": every line is passed
    over, and the analyzer is given the empty dictionary. *)
Theorem analyze_clicked_no_colon (getenv : string -> option string)
    (download : Provider F) (portfolio_text api_key : string) :
  is_ascii portfolio_text = true ->
  is_ascii api_key = true ->
  truthy portfolio_text = true ->
  truthy (strip api_key) = true ->
  contains ":" portfolio_text = false ->
  analyze_clicked to_float getenv download portfolio_text api_key
  = Return (Some (Error EmptyPortfolioError)).
Proof.
  intros _ _ Ht Hk Hc. unfold analyze_clicked. rewrite Ht.
  assert (Hkey : truthy api_key = true).
  { destruct api_key; [discriminate|reflexivity]. }
  rewrite Hkey. simpl. unfold analyzer_init. simpl. rewrite Hk. simpl.
  destruct (strip api_key) eqn:Es; [discriminate|]. simpl.
  unfold parse_portfolio. rewrite parse_lines_skips.
  rewrite (filter_none (contains ":"));
    [reflexivity|].
  apply split_contains, strip_contains, Hc.
Qed.

(** X5. When the portfolio text or the key field is empty, a click does
    nothing.  When neither is, it ends in an exception in two cases only:
    the key is blank once stripped and [OPENAI_API_KEY] is unset or empty,
    or the portfolio text cannot be read.  In every other case (a key from
    the field or from the environment, and a text that is read) it shows
    the analysis of the dictionary read from the text, which is the same
    for every price provider.  All of this up to the analysis being
    shown. *)
Theorem analyze_clicked_raises_iff (getenv : string -> option string)
    (download : Provider F) (portfolio_text api_key : string) :
  is_ascii portfolio_text = true ->
  is_ascii api_key = true ->
  (truthy portfolio_text && truthy api_key = false ->
   analyze_clicked to_float getenv download portfolio_text api_key = Return None) /\
  ((exists e, analyze_clicked to_float getenv download portfolio_text api_key = Raise e)
   <-> truthy portfolio_text = true /\ truthy api_key = true /\
       ((truthy (strip api_key) = false /\
         truthy_opt (getenv "OPENAI_API_KEY") = false) \/
        exists e, parse_portfolio to_float portfolio_text = Raise e)) /\
  (forall portfolio,
     truthy portfolio_text = true ->
     truthy api_key = true ->
     truthy (strip api_key) = true \/ truthy_opt (getenv "OPENAI_API_KEY") = true ->
     parse_portfolio to_float portfolio_text = Return portfolio ->
     exists outcome,
       analyze_portfolio stocks download portfolio = Return outcome /\
       analyze_portfolio stocks offline portfolio = Return outcome /\
       analyze_clicked to_float getenv download portfolio_text api_key
       = Return (Some outcome)).
Proof.
  intros _ _. split; [|split].
  - intros Hguard. unfold analyze_clicked. now rewrite Hguard.
  - unfold analyze_clicked.
    destruct (truthy portfolio_text); simpl;
      [|split; [intros [e He]; discriminate|intros [Hf _]; discriminate]].
    destruct (truthy api_key); simpl;
      [|split; [intros [e He]; discriminate|intros [_ [Hf _]]; discriminate]].
    unfold analyzer_init. simpl.
    destruct (truthy (strip api_key)) eqn:Hk; simpl.
    + destruct (strip api_key) as [|c key] eqn:Es; [discriminate|]. simpl.
      destruct (parse_portfolio to_float portfolio_text) as [e|portfolio]; simpl.
      * split; [intros _|intros _; eauto].
        repeat split. right. eauto.
      * destruct (analyze_portfolio_returns stocks download portfolio) as [o Ho].
        rewrite Ho. simpl. split; [intros [e He]; discriminate|].
        intros (_ & _ & [[Hf _]|[e He]]); discriminate.
    + destruct (getenv "OPENAI_API_KEY") as [[|c key]|] eqn:Henv; simpl.
      * split; [intros _|eauto]. repeat split. left. now split.
      * destruct (parse_portfolio to_float portfolio_text) as [e|portfolio]; simpl.
        -- split; [intros _|intros _; eauto].
           repeat split. right. eauto.
        -- destruct (analyze_portfolio_returns stocks download portfolio) as [o Ho].
           rewrite Ho. simpl. split; [intros [e He]; discriminate|].
           intros (_ & _ & [[_ Hf]|[e He]]); discriminate.
      * split; [intros _|eauto]. repeat split. left. now split.
  - intros portfolio Ht Hkey Hk Hrun.
    destruct (analyze_portfolio_returns stocks download portfolio) as [o Ho].
    exists o. split; [exact Ho|].
    split; [now rewrite (analyze_portfolio_provider stocks offline download)|].
    unfold analyze_clicked. rewrite Ht, Hkey. simpl.
    assert (Hinit : exists key,
              analyzer_init (Some (strip api_key)) getenv = Return key).
    { unfold analyzer_init. simpl.
      destruct (truthy (strip api_key)) eqn:Hs; simpl.
      - destruct (strip api_key); [discriminate|]. simpl. eauto.
      - destruct Hk as [Hk|Hk]; [discriminate|].
        destruct (getenv "OPENAI_API_KEY") as [[|c key]|]; try discriminate.
        simpl. eauto. }
    destruct Hinit as [key Hinit]. rewrite Hinit. simpl.
    rewrite Hrun. simpl. now rewrite Ho.
Qed.

End ClickFacts.

(** ** The price helpers *)

Lemma keys_set_fresh {V : Type} (d : dict V) (x : string) (v : V) (rest : list string) :
  NoDup (keys d ++ x :: rest) ->
  keys (dict_set d x v) ++ rest = keys d ++ x :: rest.
Proof.
  intros Hnd.
  assert (Hfresh : dict_get d x = None).
  { destruct (dict_get d x) eqn:Hg; [|reflexivity]. exfalso.
    assert (Hin : In x (keys d)).
    { apply dict_mem_keys. unfold dict_mem. now rewrite Hg. }
    apply NoDup_remove_2 in Hnd. apply Hnd, in_or_app. now left. }
  rewrite (dict_set_fresh d x v Hfresh). unfold keys. rewrite map_app. simpl.
  now rewrite <- app_assoc.
Qed.

Section PriceFacts.

Context {F : Type} `{Number F}.

Lemma current_price_other (history : History F) (prices : dict (option F))
    (symbol s : string) :
  symbol <> s ->
  dict_get (current_price history prices symbol) s = dict_get prices s.
Proof.
  intros Hne. unfold current_price.
  destruct (history symbol) as [e|data]; simpl; [now apply dict_get_set_other|].
  destruct (df_empty data); simpl; [reflexivity|].
  destruct (df_close data) as [e|close]; simpl; [now apply dict_get_set_other|].
  destruct (iloc_last close) as [e|c]; simpl; now apply dict_get_set_other.
Qed.

Lemma current_price_same (history : History F) (prices : dict (option F)) (s : string) :
  dict_get (current_price history prices s) s =
  match price_lookup history s with
  | Some entry => Some entry
  | None => dict_get prices s
  end.
Proof.
  unfold current_price, price_lookup.
  destruct (history s) as [e|data]; simpl; [apply dict_get_set_same|].
  destruct (df_empty data); simpl; [reflexivity|].
  destruct (df_close data) as [e|close]; simpl; [apply dict_get_set_same|].
  destruct (iloc_last close) as [e|c]; simpl; apply dict_get_set_same.
Qed.

Lemma get_current_prices_fold (history : History F) (s : string) (symbols : list string) :
  forall prices : dict (option F),
    dict_get (fold_left (current_price history) symbols prices) s =
    if existsb (String.eqb s) symbols then
      match price_lookup history s with
      | Some entry => Some entry
      | None => dict_get prices s
      end
    else dict_get prices s.
Proof.
  induction symbols as [|x rest IH]; intros prices; simpl; [reflexivity|].
  rewrite IH. destruct (String.eqb s x) eqn:E; simpl.
  - apply String.eqb_eq in E. subst x. rewrite current_price_same.
    destruct (price_lookup history s); destruct (existsb (String.eqb s) rest);
      reflexivity.
  - apply String.eqb_neq in E.
    rewrite current_price_other by (intros ->; now apply E). reflexivity.
Qed.

(** X6. In [get_current_prices] the entry of a symbol is decided by the
    history of that symbol alone: an exception gives the entry [None], an
    empty history gives no entry, a history with closing prices gives the
    last of them, and a symbol that was not asked for has no entry.  The
    failure of one symbol never touches the entry of another. *)
Theorem get_current_prices_lookup (history : History F) (symbols : list string)
    (s : string) :
  dict_get (get_current_prices history symbols) s =
  if existsb (String.eqb s) symbols then price_lookup history s else None.
Proof.
  unfold get_current_prices. rewrite get_current_prices_fold. simpl.
  destruct (existsb (String.eqb s) symbols); [|reflexivity].
  destruct (price_lookup history s); reflexivity.
Qed.

Lemma iloc_second_last_returns (series : list F) :
  (exists x, iloc_second_last series = Return x) <-> (2 <= List.length series)%nat.
Proof.
  unfold iloc_second_last. rewrite <- (length_rev series).
  destruct (rev series) as [|a [|b rest]]; simpl.
  - split; [intros [x Hx]; discriminate|lia].
  - split; [intros [x Hx]; discriminate|lia].
  - split; [lia|eauto].
Qed.

Lemma iloc_last_returns (series : list F) :
  (exists x, iloc_last series = Return x) <-> (1 <= List.length series)%nat.
Proof.
  destruct series; simpl; split; try lia; eauto.
  intros [x Hx]. discriminate.
Qed.

(** The frame of one symbol in the batch fetch, spelled out. *)
Lemma fetch_symbol_live_point (hist : HistData F) (symbols : list string)
    (symbol : string) (data : dict (LivePoint F)) :
  fetch_symbol hist symbols symbol data =
  match live_point hist symbols symbol with
  | Return point => (Return tt, dict_set data symbol point)
  | Raise e => (Raise e, data)
  end.
Proof.
  unfold fetch_symbol, live_point, seq, lift, modify.
  destruct (select_frame hist symbols symbol) as [e|df]; simpl; [reflexivity|].
  destruct (df_empty df); simpl; [reflexivity|].
  destruct (df_close df) as [e|close]; simpl; [reflexivity|].
  destruct (iloc_last close) as [e|last_close]; simpl; [reflexivity|].
  destruct (iloc_first close) as [e|prev_close]; simpl; reflexivity.
Qed.

(** The loop of the [try] block: it runs to its end when every symbol has
    a point, and then every symbol is left with its point. *)
Lemma for_each_fetch_all (hist : HistData F) (symbols : list string) (l : list string) :
  (forall s, In s l -> exists point, live_point hist symbols s = Return point) ->
  forall data : dict (LivePoint F),
  exists data',
    for_each (fetch_symbol hist symbols) l data = (Return tt, data') /\
    (forall s point,
       live_point hist symbols s = Return point ->
       In s l \/ dict_get data s = Some point ->
       dict_get data' s = Some point) /\
    (NoDup (keys data ++ l) -> keys data' = keys data ++ l).
Proof.
  induction l as [|x rest IH]; intros Hall data; simpl.
  - exists data. unfold ret. split; [reflexivity|]. split.
    + intros s point _ [[]|Hg]. exact Hg.
    + now rewrite app_nil_r.
  - unfold seq. rewrite fetch_symbol_live_point.
    destruct (Hall x (or_introl eq_refl)) as [px Hpx]. rewrite Hpx.
    destruct (IH (fun s Hs => Hall s (or_intror Hs)) (dict_set data x px))
      as (data' & Hrun & Hget & Hkeys).
    exists data'. split; [exact Hrun|]. split.
    + intros s point Hp Hin. apply Hget; [exact Hp|].
      destruct (string_dec x s) as [->|Hne].
      * right. rewrite dict_get_set_same. congruence.
      * destruct Hin as [[Heq|Hin]|Hg]; [contradiction|now left|].
        right. now rewrite dict_get_set_other.
    + intros Hnd. rewrite <- (keys_set_fresh data x px rest Hnd).
      apply Hkeys. now rewrite (keys_set_fresh data x px rest Hnd).
Qed.

(** The loop stops with an exception as soon as a symbol has no point; the
    dictionary then holds the symbols before it. *)
Lemma for_each_fetch_raises (hist : HistData F) (symbols : list string) (l : list string) :
  (exists s e, In s l /\ live_point hist symbols s = Raise e) ->
  forall data : dict (LivePoint F),
  exists e data' done rest,
    for_each (fetch_symbol hist symbols) l data = (Raise e, data') /\
    l = done ++ rest /\
    (NoDup (keys data ++ l) -> keys data' = keys data ++ done).
Proof.
  induction l as [|x rest IH]; intros (s & e & Hin & Hs) data; [destruct Hin|].
  simpl. unfold seq. rewrite fetch_symbol_live_point.
  destruct (live_point hist symbols x) as [ex|px] eqn:Hpx.
  - exists ex, data, [], (x :: rest). split; [reflexivity|]. split; [reflexivity|].
    intros _. now rewrite app_nil_r.
  - assert (Hrest : exists s e, In s rest /\ live_point hist symbols s = Raise e).
    { destruct Hin as [->|Hin]; [congruence|]. now exists s, e. }
    destruct (IH Hrest (dict_set data x px)) as (e' & data' & done & rest' & Hrun & Hl & Hk).
    exists e', data', (x :: done), rest'. split; [exact Hrun|].
    split; [simpl; now rewrite Hl|].
    intros Hnd. simpl.
    change (keys data ++ x :: done) with (keys data ++ [x] ++ done).
    rewrite app_assoc.
    assert (Hk' : keys (dict_set data x px) = keys data ++ [x]).
    { apply (app_inv_tail rest). rewrite <- app_assoc.
      apply (keys_set_fresh data x px rest Hnd). }
    rewrite <- Hk'. apply Hk.
    rewrite (keys_set_fresh data x px rest Hnd). exact Hnd.
Qed.

Lemma fetch_except_keys (l : list string) :
  forall data : dict (LivePoint F),
    (forall s, In s l -> In s (keys data)) ->
    keys (fetch_except l data) = keys data.
Proof.
  unfold fetch_except.
  induction l as [|x rest IH]; intros data Hin; simpl; [reflexivity|].
  assert (Hx : dict_mem data x = true) by (apply dict_mem_keys, Hin; now left).
  rewrite IH; rewrite (dict_set_keys_present data x absent Hx); [reflexivity|].
  intros s Hs. apply Hin. now right.
Qed.

Lemma fetch_except_keys_fresh (l : list string) :
  forall data : dict (LivePoint F),
    NoDup (keys data ++ l) ->
    keys (fetch_except l data) = keys data ++ l.
Proof.
  unfold fetch_except.
  induction l as [|x rest IH]; intros data Hnd; simpl; [now rewrite app_nil_r|].
  rewrite IH; rewrite (keys_set_fresh data x absent rest Hnd); [reflexivity|exact Hnd].
Qed.

End PriceFacts.

Section BatchFacts.

Context {F : Type} `{Number F}.

Lemma live_points_decide (hist : HistData F) (symbols l : list string) :
  (forall s, In s l -> exists point, live_point hist symbols s = Return point) \/
  (exists s e, In s l /\ live_point hist symbols s = Raise e).
Proof.
  induction l as [|x rest IH]; [left; intros s []|].
  destruct (live_point hist symbols x) as [e|point] eqn:Hx.
  - right. exists x, e. split; [now left|exact Hx].
  - destruct IH as [Hall|(s & e & Hin & Hs)].
    + left. intros s [<-|Hin]; [eauto|now apply Hall].
    + right. exists s, e. split; [now right|exact Hs].
Qed.

(** X7. For distinct symbols, as the keys of a portfolio are, the
    dictionary [fetch_live_data_batch] returns has one entry for every
    requested symbol and no other, in the order of the request, whether the
    provider answered or raised. *)
Theorem fetch_live_data_batch_keys (download : Provider F) (symbols : list string)
    (data : dict (LivePoint F)) :
  NoDup symbols ->
  fetch_live_data_batch download symbols = Return data ->
  keys data = symbols.
Proof.
  intros Hnd Hrun. unfold fetch_live_data_batch in Hrun.
  destruct (download symbols) as [e|hist] eqn:Hd.
  - rewrite (fetch_try_download_raises _ _ _ _ Hd) in Hrun.
    inversion Hrun; subst data. now apply (fetch_except_keys_fresh symbols []).
  - rewrite (fetch_try_download_returns _ _ _ _ Hd) in Hrun.
    destruct (live_points_decide hist symbols symbols) as [Hall|Hsome].
    + destruct (for_each_fetch_all hist symbols symbols Hall [])
        as (data' & Hloop & _ & Hkeys).
      rewrite Hloop in Hrun. inversion Hrun; subst data. now apply Hkeys.
    + destruct (for_each_fetch_raises hist symbols symbols Hsome [])
        as (e & data' & done & rest & Hloop & Hsplit & Hkeys).
      rewrite Hloop in Hrun. inversion Hrun; subst data.
      specialize (Hkeys Hnd). simpl in Hkeys.
      rewrite Hsplit in Hnd |- *. unfold fetch_except. rewrite fold_left_app.
      fold (fetch_except done data'). fold (fetch_except rest (fetch_except done data')).
      assert (Hdone : keys (fetch_except done data') = done).
      { rewrite fetch_except_keys; [exact Hkeys|]. intros s Hs. now rewrite Hkeys. }
      rewrite fetch_except_keys_fresh; rewrite Hdone; [reflexivity|exact Hnd].
Qed.

(** X8. When the provider has answered, the batch is all or nothing.  If
    every requested symbol has a point (its frame is found, and is empty
    or has closing prices), every symbol gets its own point: the last close
    rounded to two decimals, and the change from the first close in
    percent.  If a single symbol has none (its frame is missing, or is not
    empty and has no closing price), every requested symbol is left
    absent, those with good prices included. *)
Theorem fetch_live_data_batch_all_or_nothing (download : Provider F)
    (symbols : list string) (hist : HistData F) (data : dict (LivePoint F)) :
  download symbols = Return hist ->
  fetch_live_data_batch download symbols = Return data ->
  ((forall s, In s symbols -> exists point, live_point hist symbols s = Return point) ->
   forall s point,
     In s symbols -> live_point hist symbols s = Return point ->
     dict_get data s = Some point) /\
  ((exists s e, In s symbols /\ live_point hist symbols s = Raise e) ->
   forall s, In s symbols -> dict_get data s = Some absent).
Proof.
  intros Hd Hrun. unfold fetch_live_data_batch in Hrun.
  rewrite (fetch_try_download_returns _ _ _ _ Hd) in Hrun. split.
  - intros Hall s point Hin Hp.
    destruct (for_each_fetch_all hist symbols symbols Hall [])
      as (data' & Hloop & Hget & _).
    rewrite Hloop in Hrun. inversion Hrun; subst data.
    apply Hget; [exact Hp|now left].
  - intros Hsome s Hin.
    destruct (for_each_fetch_raises hist symbols symbols Hsome [])
      as (e & data' & done & rest & Hloop & _ & _).
    rewrite Hloop in Hrun. inversion Hrun; subst data.
    now apply fetch_except_absent.
Qed.

End BatchFacts.

(** X9. [fetch_index_value] gives numbers exactly when the history is
    returned, is not empty and has at least two closing prices.  In every
    other case (an exception, an empty history, a single close) it gives
    ("N/A", 0), and the sidebar then shows the index in the green of a
    rise. *)
Theorem fetch_index_value_available (history : History float) (ticker_symbol : string) :
  (fst (fetch_index_value history ticker_symbol) <> None <->
   exists hist closes,
     history ticker_symbol = Return hist /\ df_empty hist = false /\
     df_close hist = Return closes /\ (2 <= List.length closes)%nat) /\
  (fst (fetch_index_value history ticker_symbol) = None ->
   fetch_index_value history ticker_symbol = (None, 0%float) /\
   index_color (snd (fetch_index_value history ticker_symbol)) = "#28a745").
Proof.
  unfold fetch_index_value.
  destruct (history ticker_symbol) as [e|hist]; simpl.
  { split; [|intros _; split; reflexivity].
    split; [intros Hn; now contradiction Hn|intros (h & c & Hh & _); discriminate]. }
  destruct (df_empty hist) eqn:Hemp; simpl.
  { split; [|intros _; split; reflexivity].
    split; [intros Hn; now contradiction Hn|].
    intros (h & c & Hh & He & _). inversion Hh; subst. congruence. }
  destruct (df_close hist) as [e|closes] eqn:Hc; simpl.
  { split; [|intros _; split; reflexivity].
    split; [intros Hn; now contradiction Hn|].
    intros (h & c & Hh & _ & Hc' & _). inversion Hh; subst. congruence. }
  destruct (iloc_second_last closes) as [e|prev_close] eqn:Hp.
  - assert (Hshort : ~ (2 <= List.length closes)%nat).
    { intros Hlen. apply iloc_second_last_returns in Hlen.
      destruct Hlen as [x Hx]. congruence. }
    destruct (iloc_last closes) as [e'|last_close]; simpl.
    + split; [|intros _; split; reflexivity].
      split; [intros Hn; now contradiction Hn|].
      intros (h & c & Hh & _ & Hc' & Hlen). inversion Hh; subst.
      rewrite Hc in Hc'. inversion Hc'; subst. contradiction.
    + split; [|intros _; split; reflexivity].
      split; [intros Hn; now contradiction Hn|].
      intros (h & c & Hh & _ & Hc' & Hlen). inversion Hh; subst.
      rewrite Hc in Hc'. inversion Hc'; subst. contradiction.
  - assert (Hlen : (2 <= List.length closes)%nat).
    { apply iloc_second_last_returns. eauto. }
    destruct (proj2 (iloc_last_returns closes)) as [last_close Hl]; [lia|].
    rewrite Hl. simpl. split; [|discriminate].
    split; [intros _|discriminate]. now exists hist, closes.
Qed.

(** ** More on the analysis *)

Section LabelFacts.

Context {F : Type} `{Number F}.

Lemma known_holdings_iff (catalog : dict (Stock F)) (portfolio : dict F)
    (stock : Stock F) (weight : F) :
  In (stock, weight) (known_holdings catalog portfolio) <->
  exists symbol, In (symbol, weight) portfolio /\ dict_get catalog symbol = Some stock.
Proof.
  unfold known_holdings. rewrite in_flat_map. split.
  - intros [[symbol w] [Hin Hk]].
    destruct (dict_get catalog symbol) as [st|] eqn:Hget; [|destruct Hk].
    destruct Hk as [Hk|[]]. inversion Hk; subst. now exists symbol.
  - intros [symbol [Hin Hget]]. exists (symbol, weight). split; [exact Hin|].
    rewrite Hget. now left.
Qed.

Lemma format_percentages_labels (total_weight : F) (d : dict F) :
  map fst (format_1f (percentages total_weight d)) = keys d.
Proof.
  unfold format_1f, percentages, keys. rewrite !map_map.
  apply map_ext. now intros [label weight].
Qed.

Lemma breakdown_keys (label_of : Stock F -> string) (known : list (Stock F * F)) :
  keys (breakdown label_of known) = labels label_of known.
Proof.
  unfold breakdown, keys. rewrite map_map. simpl. apply map_id.
Qed.

Lemma labels_iff (label_of : Stock F -> string) (catalog : dict (Stock F))
    (portfolio : dict F) (label : string) :
  In label (labels label_of (known_holdings catalog portfolio)) <->
  exists symbol weight stock,
    In (symbol, weight) portfolio /\ dict_get catalog symbol = Some stock /\
    label_of stock = label.
Proof.
  unfold labels. rewrite In_dedup, in_map_iff. split.
  - intros [[stock weight] [Hl Hin]]. simpl in Hl.
    apply known_holdings_iff in Hin. destruct Hin as [symbol [Hin Hget]].
    now exists symbol, weight, stock.
  - intros (symbol & weight & stock & Hin & Hget & Hl).
    exists (stock, weight). split; [exact Hl|].
    apply known_holdings_iff. now exists symbol.
Qed.

(** X10. In every report each sector is listed once, and a sector is listed
    exactly when the portfolio has a holding, of whatever weight, whose
    symbol the catalog places in that sector; likewise for the risk labels.
    A symbol outside the catalog adds no line. *)
Theorem breakdown_labels (catalog : dict (Stock F)) (download : Provider F)
    (portfolio : dict F) (report : Report F) :
  analyze_portfolio catalog download portfolio = Return (Analysis report) ->
  NoDup (map fst (sector_breakdown report)) /\
  NoDup (map fst (risk_breakdown report)) /\
  (forall sector,
     In sector (map fst (sector_breakdown report)) <->
     exists symbol weight stock,
       In (symbol, weight) portfolio /\ dict_get catalog symbol = Some stock /\
       s_sector stock = sector) /\
  (forall risk,
     In risk (map fst (risk_breakdown report)) <->
     exists symbol weight stock,
       In (symbol, weight) portfolio /\ dict_get catalog symbol = Some stock /\
       s_risk stock = risk).
Proof.
  intros Hrun. destruct (analysis_valid _ _ _ _ Hrun) as [Hne Hz].
  rewrite (analyze_portfolio_spec catalog download portfolio Hne Hz) in Hrun.
  inversion Hrun; subst report; clear Hrun. simpl.
  rewrite !format_percentages_labels, !breakdown_keys.
  split; [apply NoDup_dedup|]. split; [apply NoDup_dedup|].
  split; intros label; apply labels_iff.
Qed.

End LabelFacts.

(** ** More on the analysis in exact arithmetic *)

Open Scope Q_scope.




Lemma Qsum_ext (xs ys : list Q) : Forall2 Qeq xs ys -> sum xs == sum ys.
Proof.
  induction 1 as [|x y xs ys Hxy _ IH]; [reflexivity|].
  now rewrite !Qsum_cons, Hxy, IH.
Qed.























Close Scope Q_scope.

(** ** The properties at concrete inputs *)

Lemma parse_portfolio_returns_iff_witness :
  exists portfolio,
    parse_portfolio read_decimal ("AAPL:40" ++ newline ++ "GOOGL:30")%string
    = Return portfolio.
Proof.
  apply (proj2 (parse_portfolio_returns_iff read_decimal
                  ("AAPL:40" ++ newline ++ "GOOGL:30")%string eq_refl)).
  intros line Hin Hc. vm_compute in Hin.
  destruct Hin as [<-|[<-|[]]]; (split; [reflexivity|]).
  - exists "AAPL", "40", 40%float. split; vm_compute; reflexivity.
  - exists "GOOGL", "30", 30%float. split; vm_compute; reflexivity.
Defined.

Lemma parse_portfolio_normalised_witness :
  NoDup ["AAPL"; "SPY"] /\
  forall k, In k ["AAPL"; "SPY"] -> upper k = k /\ strip k = k.
Proof.
  apply (parse_portfolio_normalised read_decimal
           (" aapl :40" ++ newline ++ "spy: 60 ")%string
           [("AAPL", 40%float); ("SPY", 60%float)]).
  - reflexivity.
  - vm_compute. reflexivity.
Defined.

Lemma parse_portfolio_last_wins_witness :
  exists portfolio,
    parse_portfolio read_decimal
      ("aapl:40" ++ newline ++ " AAPL : 50" ++ newline ++ "SPY:30")%string
    = Return portfolio /\
    dict_get portfolio "AAPL" = Some 50%float.
Proof.
  exists [("AAPL", 50%float); ("SPY", 30%float)].
  split; [vm_compute; reflexivity|].
  apply (parse_portfolio_last_wins read_decimal
           ("aapl:40" ++ newline ++ " AAPL : 50" ++ newline ++ "SPY:30")%string
           [("AAPL", 50%float); ("SPY", 30%float)]
           ["aapl:40"] ["SPY:30"] " AAPL : 50" " AAPL " " 50" 50%float).
  - reflexivity.
  - vm_compute. reflexivity.
  - vm_compute. reflexivity.
  - vm_compute. reflexivity.
  - intros line' sym' wt' [<-|[]] Hs. vm_compute in Hs. inversion Hs; subst.
    vm_compute. discriminate.
  - vm_compute. reflexivity.
Defined.

Lemma analyze_clicked_no_colon_witness :
  analyze_clicked read_decimal (fun _ => None) offline "forty percent Apple" " sk-test "
  = Return (Some (Error EmptyPortfolioError)).
Proof.
  apply (analyze_clicked_no_colon read_decimal (fun _ => None) offline
           "forty percent Apple" " sk-test "); reflexivity.
Defined.

Lemma analyze_clicked_raises_iff_witness :
  analyze_clicked read_decimal (fun _ => None) offline "AAPL:40" "" = Return None /\
  (exists e,
     analyze_clicked read_decimal (fun _ => None) offline "AAPL:40:x" "sk-test"
     = Raise e) /\
  (exists outcome,
     analyze_clicked read_decimal (fun _ => Some "sk-env") offline "aapl:100" "  "
     = Return (Some outcome)).
Proof.
  split; [|split].
  - apply (proj1 (analyze_clicked_raises_iff read_decimal (fun _ => None) offline
                    "AAPL:40" "" eq_refl eq_refl)).
    reflexivity.
  - apply (proj1 (proj2 (analyze_clicked_raises_iff read_decimal (fun _ => None)
                           offline "AAPL:40:x" "sk-test" eq_refl eq_refl))).
    split; [reflexivity|]. split; [reflexivity|].
    right. exists "ValueError". vm_compute. reflexivity.
  - destruct (proj2 (proj2 (analyze_clicked_raises_iff read_decimal
                              (fun _ => Some "sk-env") offline
                              "aapl:100" "  " eq_refl eq_refl))
                [("AAPL", 100%float)]) as (outcome & _ & _ & Hclick).
    + reflexivity.
    + reflexivity.
    + right. reflexivity.
    + vm_compute. reflexivity.
    + now exists outcome.
Defined.

Lemma fetch_live_data_batch_keys_witness :
  exists data,
    fetch_live_data_batch (F := float) offline ["AAPL"; "JPM"; "ZZZZ"] = Return data /\
    keys data = ["AAPL"; "JPM"; "ZZZZ"].
Proof.
  destruct (fetch_live_data_batch_returns (F := float) offline ["AAPL"; "JPM"; "ZZZZ"])
    as [data Hdata].
  exists data. split; [exact Hdata|].
  apply (fetch_live_data_batch_keys offline ["AAPL"; "JPM"; "ZZZZ"] data);
    [|exact Hdata].
  repeat constructor; simpl; intuition discriminate.
Defined.

Lemma fetch_live_data_batch_all_or_nothing_witness :
  exists data,
    fetch_live_data_batch (fun _ => Return sample_history) ["AAPL"; "JPM"] = Return data /\
    dict_get data "AAPL" = Some absent.
Proof.
  destruct (fetch_live_data_batch_returns (fun _ => Return sample_history)
              ["AAPL"; "JPM"]) as [data Hdata].
  exists data. split; [exact Hdata|].
  apply (proj2 (fetch_live_data_batch_all_or_nothing
                  (fun _ => Return sample_history) ["AAPL"; "JPM"]
                  sample_history data eq_refl Hdata)).
  - exists "JPM", "KeyError". split; [simpl; auto|reflexivity].
  - simpl. auto.
Defined.

Lemma fetch_index_value_available_witness :
  fetch_index_value (F := float)
    (fun _ => Return {| df_empty := false; df_close := Return [22150.25%float] |})
    "^NSEI"
  = (None, 0%float).
Proof.
  apply (proj2 (fetch_index_value_available
                  (fun _ => Return {| df_empty := false;
                                      df_close := Return [22150.25%float] |})
                  "^NSEI")).
  reflexivity.
Defined.

Lemma breakdown_labels_witness :
  NoDup ["Technology"; "Financial"] /\ NoDup ["Medium"; "Low"].
Proof.
  destruct (breakdown_labels (F := float) stocks offline
              [("AAPL", 40%float); ("JPM", 30%float); ("MSFT", 20%float);
               ("ZZZZ", 10%float)]
              {| total_allocation := 100%float;
                 weighted_beta := 1%float;
                 weighted_return := 12.4%float;
                 weighted_volatility := 0.2%float;
                 portfolio_risk := Medium;
                 sector_breakdown := [("Technology", 60%float); ("Financial", 30%float)];
                 risk_breakdown := [("Medium", 60%float); ("Low", 30%float)] |})
    as (Hs & Hr & _).
  - vm_compute. reflexivity.
  - split; assumption.
Defined.

Open Scope Q_scope.





Close Scope Q_scope.

(** ** The breakdowns of the float engine *)


